(** * Reservation system (Act6.2/reservation_system.py)

    A shallow embedding of the hotel / customer / reservation store and of
    its JSON persistence layer, followed by the properties of the
    room-availability counter and of the load/save discipline. *)

From stdpp Require Import gmap strings pretty list fin_maps.

Open Scope string_scope.
Open Scope Z_scope.

(** ** Python values

    The arguments the public operations receive are arbitrary Python
    objects.  The ones that matter here are [None], strings and
    integers: identifiers are passed through [str], and the optional
    arguments of the modify operations are tested for truthiness. *)

Inductive pyval : Type :=
| PNone
| PStr (s : string)
| PInt (z : Z).

#[global] Instance pyval_eq_dec : EqDecision pyval.
Proof. solve_decision. Defined.

(** [str(x)] *)
Definition str (v : pyval) : string :=
  match v with
  | PNone => "None"
  | PStr s => s
  | PInt z => pretty z
  end.

(** Truth value of an object, as tested by [if x:]. *)
Definition truthy (v : pyval) : bool :=
  match v with
  | PNone => false
  | PStr s => negb (String.eqb s EmptyString)
  | PInt z => negb (Z.eqb z 0)
  end.

(** ** Stored records

    Each collection is a dict from identifier to a dict with a fixed set of
    keys; the inner dicts are records. *)

(** [Hotel.to_dict] *)
Record hotel : Type := mk_hotel {
  name : pyval;
  location : pyval;
  total_rooms : Z;
  available_rooms : Z
}.

(** [Customer.to_dict] *)
Record customer : Type := mk_customer {
  cust_name : pyval;
  email : pyval
}.

(** The dict stored by [create_reservation]. *)
Record reservation : Type := mk_reservation {
  customer_id : string;
  hotel_id : string
}.

#[global] Instance hotel_eq_dec : EqDecision hotel.
Proof. solve_decision. Defined.
#[global] Instance customer_eq_dec : EqDecision customer.
Proof. solve_decision. Defined.
#[global] Instance reservation_eq_dec : EqDecision reservation.
Proof. solve_decision. Defined.

(** ** The file system

    A snapshot file is either absent, or present with contents that
    [json.load] rejects, or present but failing to open or read with some
    other exception, or present and holding a JSON document.  A document is
    a collection of records of the shape the operations write, and a document
    written by [json.dump] is read back unchanged by [json.load] (string
    keys; [None], strings and integers as values). *)

Inductive file (A : Type) : Type :=
| Missing
| Invalid
| Unreadable (e : string)
| Doc (d : gmap string A).

Arguments Missing {A}.
Arguments Invalid {A}.
Arguments Unreadable {A} e.
Arguments Doc {A} d.

(** What the next attempt to write a file will meet: [open(filename, 'w')]
    may raise (the file is then untouched), or the write may raise after
    the file has been truncated. *)
Inductive fault : Type :=
| NoFault
| OpenFails (e : string)
| WriteFails (e : string).

Record world : Type := World {
  hotels_json : file hotel;
  customers_json : file customer;
  reservations_json : file reservation;
  stdout : list string;
  faults : list fault
}.

(** A file name together with the place of that file in the world. *)
Record slot (A : Type) : Type := Slot {
  filename : string;
  content : world → file A;
  store : file A → world → world
}.

Arguments filename {A} s.
Arguments content {A} s w.
Arguments store {A} s f w.

(** ** Exceptions and the monad of the operations *)

Inductive exn : Type :=
| JSONDecodeError (e : string)
| KeyError (k : string)
| OtherException (e : string).

(** [str(e)] for a caught exception [e]. *)
Definition exn_str (e : exn) : string :=
  match e with
  | JSONDecodeError s => s
  | KeyError k => "'" +:+ k +:+ "'"
  | OtherException s => s
  end.

Inductive outcome (A : Type) : Type :=
| Ret (a : A)
| Raise (e : exn).

Arguments Ret {A} a.
Arguments Raise {A} e.

Definition M (A : Type) : Type := world → outcome A * world.

Definition ret {A} (a : A) : M A := fun w => (Ret a, w).

Definition raise {A} (e : exn) : M A := fun w => (Raise e, w).

Definition bind {A B} (m : M A) (k : A → M B) : M B :=
  fun w =>
    match m w with
    | (Ret a, w') => k a w'
    | (Raise e, w') => (Raise e, w')
    end.

(** [try: body  except ...: handler] *)
Definition try_except {A} (body : M A) (handler : exn → M A) : M A :=
  fun w =>
    match body w with
    | (Ret a, w') => (Ret a, w')
    | (Raise e, w') => handler e w'
    end.

#[global] Instance M_ret : MRet M := @ret.
#[global] Instance M_bind : MBind M := fun A B k m => bind m k.

(** ** Primitives *)

Definition print (s : string) : M unit :=
  fun w => (Ret tt,
            World (hotels_json w) (customers_json w) (reservations_json w)
                  (stdout w ++ [s]) (faults w)).

(** [os.path.exists(filename)] *)
Definition os_path_exists {A} (f : slot A) : M bool :=
  fun w =>
    match content f w with
    | Missing => (Ret false, w)
    | _ => (Ret true, w)
    end.

(** [with open(filename, 'r', encoding='utf-8') as file: return json.load(file)] *)
Definition read_json {A} (f : slot A) : M (gmap string A) :=
  fun w =>
    match content f w with
    | Missing => (Raise (OtherException ("No such file or directory: " +:+ filename f)), w)
    | Invalid => (Raise (JSONDecodeError "Expecting value"), w)
    | Unreadable e => (Raise (OtherException e), w)
    | Doc d => (Ret d, w)
    end.

Definition set_faults (fs : list fault) (w : world) : world :=
  World (hotels_json w) (customers_json w) (reservations_json w) (stdout w) fs.

(** [with open(filename, 'w', encoding='utf-8') as file: json.dump(data, file, indent=4)] *)
Definition write_json {A} (f : slot A) (data : gmap string A) : M unit :=
  fun w =>
    match faults w with
    | [] => (Ret tt, store f (Doc data) w)
    | NoFault :: fs => (Ret tt, store f (Doc data) (set_faults fs w))
    | OpenFails e :: fs => (Raise (OtherException e), set_faults fs w)
    | WriteFails e :: fs => (Raise (OtherException e), store f Invalid (set_faults fs w))
    end.

(** ** Dict operations *)

(** [k in d] *)
Definition contains {A} (k : string) (d : gmap string A) : bool :=
  bool_decide (is_Some (d !! k)).

(** [d[k]] *)
Definition getitem {A} (d : gmap string A) (k : string) : M A :=
  match d !! k with
  | Some a => ret a
  | None => raise (KeyError k)
  end.

(** [del d[k]] *)
Definition delitem {A} (d : gmap string A) (k : string) : M (gmap string A) :=
  match d !! k with
  | Some _ => ret (delete k d)
  | None => raise (KeyError k)
  end.

(** ** DataManager *)

Module DataManager.

Definition load_data {A} (f : slot A) : M (gmap string A) :=
  exists_ ← os_path_exists f;
  if negb exists_ then ret ∅
  else
    try_except (read_json f)
      (fun e =>
         match e with
         | JSONDecodeError _ =>
             print ("Invalid JSON in " +:+ filename f +:+ ". Returning empty.");;
             ret ∅
         | _ =>
             print ("Unexpected error loading " +:+ filename f +:+ ": " +:+ exn_str e);;
             ret ∅
         end).

Definition save_data {A} (f : slot A) (data : gmap string A) : M pyval :=
  try_except (write_json f data)
    (fun e =>
       print ("Unexpected error saving to " +:+ filename f +:+ ": " +:+ exn_str e));;
  ret PNone.

End DataManager.

(** ** Hotel *)

Module Hotel.

Definition FILE_NAME : slot hotel :=
  Slot hotel "hotels.json" hotels_json
    (fun f w => World f (customers_json w) (reservations_json w) (stdout w) (faults w)).

(** [Hotel(hotel_id, name, location, total_rooms).to_dict()] *)
Definition to_dict (name location : pyval) (total_rooms : Z) : hotel :=
  mk_hotel name location total_rooms total_rooms.

Definition set_name (v : pyval) (h : hotel) : hotel :=
  mk_hotel v (location h) (total_rooms h) (available_rooms h).

Definition set_location (v : pyval) (h : hotel) : hotel :=
  mk_hotel (name h) v (total_rooms h) (available_rooms h).

Definition set_available_rooms (n : Z) (h : hotel) : hotel :=
  mk_hotel (name h) (location h) (total_rooms h) n.

Definition create_hotel (hotel_id name location : pyval) (rooms : Z) : M bool :=
  data ← DataManager.load_data FILE_NAME;
  if contains (str hotel_id) data then
    print ("Error: Hotel ID " +:+ str hotel_id +:+ " already exists.");;
    ret false
  else
    let new_hotel := to_dict name location rooms in
    let data := <[str hotel_id := new_hotel]> data in
    DataManager.save_data FILE_NAME data;;
    ret true.

Definition delete_hotel (hotel_id : pyval) : M bool :=
  data ← DataManager.load_data FILE_NAME;
  if contains (str hotel_id) data then
    data ← delitem data (str hotel_id);
    DataManager.save_data FILE_NAME data;;
    ret true
  else
    print ("Error: Hotel ID " +:+ str hotel_id +:+ " not found.");;
    ret false.

Definition display_hotel (hotel_id : pyval) : M (hotel + string) :=
  data ← DataManager.load_data FILE_NAME;
  ret (match data !! str hotel_id with
       | Some h => inl h
       | None => inr "Hotel not found."
       end).

Definition modify_hotel (hotel_id name location : pyval) : M bool :=
  data ← DataManager.load_data FILE_NAME;
  let hid := str hotel_id in
  if contains hid data then
    let data := if truthy name then alter (set_name name) hid data else data in
    let data := if truthy location then alter (set_location location) hid data else data in
    DataManager.save_data FILE_NAME data;;
    ret true
  else ret false.

End Hotel.

(** ** Customer *)

Module Customer.

Definition FILE_NAME : slot customer :=
  Slot customer "customers.json" customers_json
    (fun f w => World (hotels_json w) f (reservations_json w) (stdout w) (faults w)).

(** [Customer(customer_id, name, email).to_dict()] *)
Definition to_dict (name email : pyval) : customer := mk_customer name email.

Definition set_name (v : pyval) (c : customer) : customer := mk_customer v (email c).

Definition set_email (v : pyval) (c : customer) : customer := mk_customer (cust_name c) v.

Definition create_customer (customer_id name email : pyval) : M bool :=
  data ← DataManager.load_data FILE_NAME;
  if contains (str customer_id) data then
    print ("Error: Customer ID " +:+ str customer_id +:+ " already exists.");;
    ret false
  else
    let new_customer := to_dict name email in
    let data := <[str customer_id := new_customer]> data in
    DataManager.save_data FILE_NAME data;;
    ret true.

Definition delete_customer (customer_id : pyval) : M bool :=
  data ← DataManager.load_data FILE_NAME;
  if contains (str customer_id) data then
    data ← delitem data (str customer_id);
    DataManager.save_data FILE_NAME data;;
    ret true
  else ret false.

Definition display_customer (customer_id : pyval) : M (customer + string) :=
  data ← DataManager.load_data FILE_NAME;
  ret (match data !! str customer_id with
       | Some c => inl c
       | None => inr "Customer not found."
       end).

Definition modify_customer (customer_id name email : pyval) : M bool :=
  data ← DataManager.load_data FILE_NAME;
  let cid := str customer_id in
  if contains cid data then
    let data := if truthy name then alter (set_name name) cid data else data in
    let data := if truthy email then alter (set_email email) cid data else data in
    DataManager.save_data FILE_NAME data;;
    ret true
  else ret false.

End Customer.

(** ** Reservation *)

Module Reservation.

Definition FILE_NAME : slot reservation :=
  Slot reservation "reservations.json" reservations_json
    (fun f w => World (hotels_json w) (customers_json w) f (stdout w) (faults w)).

Definition create_reservation (res_id customer_id hotel_id : pyval) : M bool :=
  res_data ← DataManager.load_data FILE_NAME;
  if contains (str res_id) res_data then
    print "Error: Reservation ID already exists.";;
    ret false
  else
    hotel_data ← DataManager.load_data Hotel.FILE_NAME;
    if negb (contains (str hotel_id) hotel_data) then
      print "Error: Hotel does not exist.";;
      ret false
    else
      h ← getitem hotel_data (str hotel_id);
      if 0 <? available_rooms h then
        h ← getitem hotel_data (str hotel_id);
        let hotel_data :=
          <[str hotel_id := Hotel.set_available_rooms (available_rooms h - 1) h]> hotel_data in
        DataManager.save_data Hotel.FILE_NAME hotel_data;;
        let res_data :=
          <[str res_id := mk_reservation (str customer_id) (str hotel_id)]> res_data in
        DataManager.save_data FILE_NAME res_data;;
        ret true
      else
        print "Error: No rooms available.";;
        ret false.

Definition cancel_reservation (res_id : pyval) : M bool :=
  res_data ← DataManager.load_data FILE_NAME;
  if negb (contains (str res_id) res_data) then
    print "Error: Reservation not found.";;
    ret false
  else
    r ← getitem res_data (str res_id);
    let hotel_id := hotel_id r in
    hotel_data ← DataManager.load_data Hotel.FILE_NAME;
    (if contains hotel_id hotel_data then
       h ← getitem hotel_data hotel_id;
       let hotel_data :=
         <[hotel_id := Hotel.set_available_rooms (available_rooms h + 1) h]> hotel_data in
       DataManager.save_data Hotel.FILE_NAME hotel_data
     else ret PNone);;
    res_data ← delitem res_data (str res_id);
    DataManager.save_data FILE_NAME res_data;;
    ret true.

End Reservation.

(** ** Sequences of public operations *)

Inductive op : Type :=
| CreateHotel (hotel_id name location : pyval) (rooms : Z)
| DeleteHotel (hotel_id : pyval)
| ModifyHotel (hotel_id name location : pyval)
| CreateCustomer (customer_id name email : pyval)
| DeleteCustomer (customer_id : pyval)
| ModifyCustomer (customer_id name email : pyval)
| CreateReservation (res_id customer_id hotel_id : pyval)
| CancelReservation (res_id : pyval).

Definition exec (o : op) : M bool :=
  match o with
  | CreateHotel i n l r => Hotel.create_hotel i n l r
  | DeleteHotel i => Hotel.delete_hotel i
  | ModifyHotel i n l => Hotel.modify_hotel i n l
  | CreateCustomer i n e => Customer.create_customer i n e
  | DeleteCustomer i => Customer.delete_customer i
  | ModifyCustomer i n e => Customer.modify_customer i n e
  | CreateReservation r c h => Reservation.create_reservation r c h
  | CancelReservation r => Reservation.cancel_reservation r
  end.

Definition step (o : op) (w : world) : world := (exec o w).2.

Definition run (os : list op) (w : world) : world := foldl (fun w o => step o w) w os.

(** The store before first use: no snapshot file, nothing printed, and no
    write about to fail. *)
Definition empty_world : world := World Missing Missing Missing [] [].

(** ** The collections as the operations see them *)

Definition view {A} (f : file A) : gmap string A :=
  match f with
  | Doc d => d
  | _ => ∅
  end.

Definition hotels (w : world) : gmap string hotel := view (hotels_json w).
Definition customers (w : world) : gmap string customer := view (customers_json w).
Definition reservations (w : world) : gmap string reservation := view (reservations_json w).

(** Number of reservations of the ledger that reference hotel [hid]. *)
Definition booked (hid : string) (res : gmap string reservation) : Z :=
  Z.of_nat (size (filter (fun kr => hotel_id kr.2 = hid) res)).

(** ** Proof support *)

(** The world after [print]ing the messages [ms]. *)
Definition log (ms : list string) (w : world) : world :=
  World (hotels_json w) (customers_json w) (reservations_json w) (stdout w ++ ms) (faults w).

(** ** Abstract transitions

    What each public operation does to the three collections when no write
    fails. *)

Record astate : Type := AState {
  a_hotels : gmap string hotel;
  a_customers : gmap string customer;
  a_reservations : gmap string reservation
}.

Definition abs (w : world) : astate := AState (hotels w) (customers w) (reservations w).

Definition astep (o : op) (s : astate) : astate :=
  let '(AState hs cs rs) := s in
  match o with
  | CreateHotel i n l r =>
      if contains (str i) hs then s
      else AState (<[str i := Hotel.to_dict n l r]> hs) cs rs
  | DeleteHotel i => AState (delete (str i) hs) cs rs
  | ModifyHotel i n l =>
      let hs := if truthy n then alter (Hotel.set_name n) (str i) hs else hs in
      let hs := if truthy l then alter (Hotel.set_location l) (str i) hs else hs in
      AState hs cs rs
  | CreateCustomer i n e =>
      if contains (str i) cs then s
      else AState hs (<[str i := Customer.to_dict n e]> cs) rs
  | DeleteCustomer i => AState hs (delete (str i) cs) rs
  | ModifyCustomer i n e =>
      let cs := if truthy n then alter (Customer.set_name n) (str i) cs else cs in
      let cs := if truthy e then alter (Customer.set_email e) (str i) cs else cs in
      AState hs cs rs
  | CreateReservation rid cid hid =>
      if contains (str rid) rs then s
      else
        match hs !! str hid with
        | Some h =>
            if 0 <? available_rooms h then
              AState (<[str hid := Hotel.set_available_rooms (available_rooms h - 1) h]> hs) cs
                (<[str rid := mk_reservation (str cid) (str hid)]> rs)
            else s
        | None => s
        end
  | CancelReservation rid =>
      match rs !! str rid with
      | Some r =>
          AState
            match hs !! hotel_id r with
            | Some h =>
                <[hotel_id r := Hotel.set_available_rooms (available_rooms h + 1) h]> hs
            | None => hs
            end cs (delete (str rid) rs)
      | None => s
      end
  end.


(** The world after a load, and after a save. *)
Definition loaded {A} (f : slot A) (w : world) : world := (DataManager.load_data f w).2.

Definition saved {A} (f : slot A) (d : gmap string A) (w : world) : world :=
  (DataManager.save_data f d w).2.

(** ** Consistency of the two collections *)

(** Every reservation of the ledger references a hotel that exists. *)
Definition no_dangling (s : astate) : Prop :=
  map_Forall (fun _ r => is_Some (a_hotels s !! hotel_id r)) (a_reservations s).

(** For each hotel, [available_rooms = total_rooms -] the number of
    reservations that reference it. *)
Definition rooms_accounted (s : astate) : Prop :=
  map_Forall
    (fun hid h => available_rooms h = total_rooms h - booked hid (a_reservations s))
    (a_hotels s).

(** For each hotel, [0 <= available_rooms <= total_rooms]. *)
Definition within_bounds (s : astate) : Prop :=
  map_Forall (fun _ h => 0 ≤ available_rooms h ≤ total_rooms h) (a_hotels s).

(** An operation that deletes no hotel still referenced by a reservation. *)
Definition keeps_references (o : op) (s : astate) : Prop :=
  match o with
  | DeleteHotel i => booked (str i) (a_reservations s) = 0
  | _ => True
  end.

(** An operation that creates no hotel with a negative number of rooms. *)
Definition nonneg_rooms (o : op) : Prop :=
  match o with
  | CreateHotel _ _ _ r => 0 ≤ r
  | _ => True
  end.

(** A sequence of operations none of which, at the moment it runs, deletes a
    hotel that a reservation references. *)
Fixpoint admissible (os : list op) (w : world) : Prop :=
  match os with
  | [] => True
  | o :: os' => keeps_references o (abs w) ∧ admissible os' (step o w)
  end.

(** Operations that leave the ledger and the room counter of hotel [hid]
    alone: no reservation is created or cancelled, and [hid] is not
    deleted. *)
Definition quiet (hid : string) (o : op) : Prop :=
  match o with
  | CreateReservation _ _ _ => False
  | CancelReservation _ => False
  | DeleteHotel i => str i ≠ hid
  | _ => True
  end.

(** ** Sample runs *)

(** Two hotels, one customer, three reservation attempts against a hotel
    with two rooms, a cancellation, and the deletion of the hotel that no
    reservation references. *)
Definition busy_day : list op :=
  [CreateHotel (PInt 1) (PStr "Plaza") (PStr "NYC") 2;
   CreateHotel (PInt 2) (PStr "Ritz") (PStr "Paris") 1;
   CreateCustomer (PInt 1) (PStr "John") (PStr "j@m.com");
   CreateReservation (PStr "R1") (PInt 1) (PInt 1);
   CreateReservation (PStr "R2") (PInt 1) (PInt 1);
   CreateReservation (PStr "R3") (PInt 1) (PInt 1);
   ModifyHotel (PInt 1) (PStr "Grand Plaza") PNone;
   CancelReservation (PStr "R1");
   DeleteCustomer (PInt 1);
   DeleteHotel (PInt 2)].

(** The hotel [H1] is deleted while reservation [R1] references it, created
    again, and the reservation is then cancelled. *)
Definition drift : list op :=
  [CreateHotel (PStr "H1") (PStr "Plaza") (PStr "NYC") 1;
   CreateReservation (PStr "R1") (PStr "C1") (PStr "H1");
   DeleteHotel (PStr "H1");
   CreateHotel (PStr "H1") (PStr "Plaza") (PStr "NYC") 1;
   CancelReservation (PStr "R1")].

(** A hotel created with a negative number of rooms. *)
Definition overdrawn : list op :=
  [CreateHotel (PStr "H1") (PStr "Plaza") (PStr "NYC") (-1)].

(** One hotel with a single room, and one customer. *)
Definition plaza : world :=
  run [CreateHotel (PStr "H1") (PStr "Plaza") (PStr "NYC") 1;
       CreateCustomer (PStr "C1") (PStr "John") (PStr "j@x.com")] empty_world.

(** The same store once reservation [R1] has taken the only room. *)
Definition plaza_full : world :=
  step (CreateReservation (PStr "R1") (PStr "C1") (PStr "H1")) plaza.

(** [plaza_full] after the hotel has been deleted behind the ledger's back. *)
Definition plaza_gone : world := step (DeleteHotel (PStr "H1")) plaza_full.

(** The empty store, about to meet a failure on its next write. *)
Definition read_only : world :=
  set_faults [OpenFails "Permission denied"] empty_world.

(** The empty store with a disk that fills up during the next write. *)
Definition disk_full : world :=
  set_faults [WriteFails "No space left on device"] empty_world.

(** A store whose hotel file holds text that is not JSON. *)
Definition garbled : world := World Invalid Missing Missing [] [].

(** ** Further sample stores *)

(** A store whose hotel file cannot be read and whose ledger is garbled. *)
Definition locked : world :=
  World (Unreadable "Permission denied") Missing Invalid [] [].

(** [plaza] with the first write going through and the second one failing. *)
Definition plaza_half : world := set_faults [NoFault; OpenFails "Permission denied"] plaza.

(** [plaza_full] with the first write going through and the second one
    failing. *)
Definition plaza_full_half : world :=
  set_faults [NoFault; OpenFails "Permission denied"] plaza_full.

(** ** Well-behaved file slots *)

(** Reading a slot gives what was last stored in it, and neither printing
    nor the schedule of write faults is part of its content. *)
Definition lens {A} (f : slot A) : Prop :=
  (∀ x w, content f (store f x w) = x) ∧
  (∀ fs w, content f (set_faults fs w) = content f w) ∧
  (∀ ms w, content f (log ms w) = content f w).

(** ** Booking several rooms *)

(** One reservation per (reservation id, customer id) pair, all against the
    hotel [hid]. *)
Definition reserve_all (hid : pyval) (rs : list (pyval * pyval)) : list op :=
  map (fun rc => CreateReservation rc.1 rc.2 hid) rs.

(** * Properties *)

Example str_int : str (PInt 12) = "12" ∧ str (PInt (-5)) = "-5" ∧ str (PStr "H1") = "H1".
Proof. vm_compute. done. Qed.

Example scenario_plaza :
  let w1 := run [CreateHotel (PStr "H1") (PStr "Plaza") (PStr "NYC") 1;
                 CreateCustomer (PStr "C1") (PStr "John") (PStr "j@x.com")] empty_world in
  let '(r1, w2) := Reservation.create_reservation (PStr "R1") (PStr "C1") (PStr "H1") w1 in
  let '(r2, w3) := Reservation.create_reservation (PStr "R2") (PStr "C1") (PStr "H1") w2 in
  let '(r3, w4) := Reservation.cancel_reservation (PStr "R1") w3 in
  r1 = Ret true ∧ available_rooms <$> hotels w2 !! "H1" = Some 0 ∧
  r2 = Ret false ∧ r3 = Ret true ∧ available_rooms <$> hotels w4 !! "H1" = Some 1.
Proof. vm_compute. done. Qed.

(** ** What a load and a save do *)

Ltac py_unfold :=
  unfold DataManager.load_data, DataManager.save_data, os_path_exists, read_json,
    write_json, try_except, print, getitem, delitem, raise, set_faults,
    mbind, M_bind, bind, mret, M_ret, ret in *.

Lemma load_data_run {A} (f : slot A) (w : world) :
  DataManager.load_data f w =
  (Ret (view (content f w)),
   match content f w with
   | Invalid => log ["Invalid JSON in " +:+ filename f +:+ ". Returning empty."] w
   | Unreadable e => log ["Unexpected error loading " +:+ filename f +:+ ": " +:+ e] w
   | _ => w
   end).
Proof. py_unfold. destruct (content f w) eqn:E; simpl; rewrite ?E; reflexivity. Qed.

Lemma save_data_run {A} (f : slot A) (d : gmap string A) (w : world) :
  DataManager.save_data f d w =
  (Ret PNone,
   match faults w with
   | [] => store f (Doc d) w
   | NoFault :: fs => store f (Doc d) (set_faults fs w)
   | OpenFails e :: fs =>
       log ["Unexpected error saving to " +:+ filename f +:+ ": " +:+ e] (set_faults fs w)
   | WriteFails e :: fs =>
       log ["Unexpected error saving to " +:+ filename f +:+ ": " +:+ e]
         (store f Invalid (set_faults fs w))
   end).
Proof. py_unfold. destruct (faults w) as [|[]]; reflexivity. Qed.


Lemma load_data_eq {A} (f : slot A) (w : world) :
  DataManager.load_data f w = (Ret (view (content f w)), loaded f w).
Proof. unfold loaded. rewrite load_data_run. reflexivity. Qed.

Lemma save_data_eq {A} (f : slot A) (d : gmap string A) (w : world) :
  DataManager.save_data f d w = (Ret PNone, saved f d w).
Proof. unfold saved. rewrite save_data_run. reflexivity. Qed.

(** A load changes no file and consumes no fault; it only prints. *)
Lemma loaded_files {A} (f : slot A) (w : world) :
  hotels_json (loaded f w) = hotels_json w ∧
  customers_json (loaded f w) = customers_json w ∧
  reservations_json (loaded f w) = reservations_json w ∧
  faults (loaded f w) = faults w.
Proof. unfold loaded. rewrite load_data_run. simpl. destruct (content f w); done. Qed.

Lemma loaded_hotels_json {A} (f : slot A) w : hotels_json (loaded f w) = hotels_json w.
Proof. apply loaded_files. Qed.

Lemma loaded_customers_json {A} (f : slot A) w :
  customers_json (loaded f w) = customers_json w.
Proof. apply loaded_files. Qed.

Lemma loaded_reservations_json {A} (f : slot A) w :
  reservations_json (loaded f w) = reservations_json w.
Proof. apply loaded_files. Qed.

Lemma loaded_faults {A} (f : slot A) w : faults (loaded f w) = faults w.
Proof. apply loaded_files. Qed.

Lemma loaded_hotels {A} (f : slot A) w : hotels (loaded f w) = hotels w.
Proof. unfold hotels. by rewrite loaded_hotels_json. Qed.

Lemma loaded_customers {A} (f : slot A) w : customers (loaded f w) = customers w.
Proof. unfold customers. by rewrite loaded_customers_json. Qed.

Lemma loaded_reservations {A} (f : slot A) w : reservations (loaded f w) = reservations w.
Proof. unfold reservations. by rewrite loaded_reservations_json. Qed.

Lemma log_hotels ms w : hotels (log ms w) = hotels w.
Proof. reflexivity. Qed.

Lemma log_customers ms w : customers (log ms w) = customers w.
Proof. reflexivity. Qed.

Lemma log_reservations ms w : reservations (log ms w) = reservations w.
Proof. reflexivity. Qed.

Lemma log_faults ms w : faults (log ms w) = faults w.
Proof. reflexivity. Qed.

Create Rewrite HintDb files.
#[global] Hint Rewrite @loaded_hotels_json @loaded_customers_json @loaded_reservations_json
  @loaded_faults @loaded_hotels @loaded_customers @loaded_reservations
  log_hotels log_customers log_reservations log_faults : files.

(** A save that meets no fault replaces the file by the document. *)
Lemma saved_hotels_ok d w :
  faults w = [] →
  saved Hotel.FILE_NAME d w =
  World (Doc d) (customers_json w) (reservations_json w) (stdout w) [].
Proof. intros Hf. unfold saved. rewrite save_data_run, Hf. simpl. by rewrite Hf. Qed.

Lemma saved_customers_ok d w :
  faults w = [] →
  saved Customer.FILE_NAME d w =
  World (hotels_json w) (Doc d) (reservations_json w) (stdout w) [].
Proof. intros Hf. unfold saved. rewrite save_data_run, Hf. simpl. by rewrite Hf. Qed.

Lemma saved_reservations_ok d w :
  faults w = [] →
  saved Reservation.FILE_NAME d w =
  World (hotels_json w) (customers_json w) (Doc d) (stdout w) [].
Proof. intros Hf. unfold saved. rewrite save_data_run, Hf. simpl. by rewrite Hf. Qed.

(** Whatever fault it meets, a save leaves the file as it was, or
    truncated, or holding the document; the other two files are untouched. *)
Lemma saved_hotels_files d w :
  (hotels_json (saved Hotel.FILE_NAME d w) = Doc d ∨
   hotels_json (saved Hotel.FILE_NAME d w) = Invalid ∨
   hotels_json (saved Hotel.FILE_NAME d w) = hotels_json w) ∧
  customers_json (saved Hotel.FILE_NAME d w) = customers_json w ∧
  reservations_json (saved Hotel.FILE_NAME d w) = reservations_json w.
Proof.
  unfold saved. rewrite save_data_run. destruct (faults w) as [|[]]; simpl; auto.
Qed.

Lemma saved_customers_files d w :
  hotels_json (saved Customer.FILE_NAME d w) = hotels_json w ∧
  (customers_json (saved Customer.FILE_NAME d w) = Doc d ∨
   customers_json (saved Customer.FILE_NAME d w) = Invalid ∨
   customers_json (saved Customer.FILE_NAME d w) = customers_json w) ∧
  reservations_json (saved Customer.FILE_NAME d w) = reservations_json w.
Proof.
  unfold saved. rewrite save_data_run. destruct (faults w) as [|[]]; simpl; auto.
Qed.

Lemma saved_reservations_files d w :
  hotels_json (saved Reservation.FILE_NAME d w) = hotels_json w ∧
  customers_json (saved Reservation.FILE_NAME d w) = customers_json w ∧
  (reservations_json (saved Reservation.FILE_NAME d w) = Doc d ∨
   reservations_json (saved Reservation.FILE_NAME d w) = Invalid ∨
   reservations_json (saved Reservation.FILE_NAME d w) = reservations_json w).
Proof.
  unfold saved. rewrite save_data_run. destruct (faults w) as [|[]]; simpl; auto.
Qed.

(** ** Symbolic execution of the operations *)

Lemma contains_lookup {A} (k : string) (d : gmap string A) :
  contains k d = match d !! k with Some _ => true | None => false end.
Proof.
  unfold contains. destruct (d !! k) eqn:E.
  - apply bool_decide_eq_true_2. eauto.
  - apply bool_decide_eq_false_2. by intros [? ?].
Qed.

Ltac py_load :=
  unfold mbind, M_bind, bind; rewrite load_data_eq; cbn beta iota zeta;
  repeat match goal with
    | |- context [content Hotel.FILE_NAME ?x] =>
        change (content Hotel.FILE_NAME x) with (hotels_json x)
    | |- context [content Customer.FILE_NAME ?x] =>
        change (content Customer.FILE_NAME x) with (customers_json x)
    | |- context [content Reservation.FILE_NAME ?x] =>
        change (content Reservation.FILE_NAME x) with (reservations_json x)
    end;
  autorewrite with files;
  repeat match goal with
    | |- context [view (hotels_json ?x)] => fold (hotels x)
    | |- context [view (customers_json ?x)] => fold (customers x)
    | |- context [view (reservations_json ?x)] => fold (reservations x)
    end.

Lemma create_hotel_run (i n l : pyval) (r : Z) (w : world) :
  Hotel.create_hotel i n l r w =
  let w1 := loaded Hotel.FILE_NAME w in
  if contains (str i) (hotels w) then
    (Ret false, log ["Error: Hotel ID " +:+ str i +:+ " already exists."] w1)
  else
    (Ret true, saved Hotel.FILE_NAME (<[str i := Hotel.to_dict n l r]> (hotels w)) w1).
Proof.
  unfold Hotel.create_hotel. py_load.
  destruct (contains (str i) (hotels w)); [reflexivity|].
  cbn. by rewrite save_data_eq.
Qed.

Lemma delete_hotel_run (i : pyval) (w : world) :
  Hotel.delete_hotel i w =
  let w1 := loaded Hotel.FILE_NAME w in
  if contains (str i) (hotels w) then
    (Ret true, saved Hotel.FILE_NAME (delete (str i) (hotels w)) w1)
  else
    (Ret false, log ["Error: Hotel ID " +:+ str i +:+ " not found."] w1).
Proof.
  unfold Hotel.delete_hotel. py_load. rewrite contains_lookup. unfold delitem.
  destruct (hotels w !! str i); [|reflexivity].
  cbn. by rewrite save_data_eq.
Qed.

Lemma modify_hotel_run (i n l : pyval) (w : world) :
  Hotel.modify_hotel i n l w =
  let w1 := loaded Hotel.FILE_NAME w in
  if contains (str i) (hotels w) then
    let data := if truthy n then alter (Hotel.set_name n) (str i) (hotels w) else hotels w in
    let data := if truthy l then alter (Hotel.set_location l) (str i) data else data in
    (Ret true, saved Hotel.FILE_NAME data w1)
  else (Ret false, w1).
Proof.
  unfold Hotel.modify_hotel. py_load.
  destruct (contains (str i) (hotels w)); [|reflexivity].
  cbn. by rewrite save_data_eq.
Qed.

Lemma create_customer_run (i n e : pyval) (w : world) :
  Customer.create_customer i n e w =
  let w1 := loaded Customer.FILE_NAME w in
  if contains (str i) (customers w) then
    (Ret false, log ["Error: Customer ID " +:+ str i +:+ " already exists."] w1)
  else
    (Ret true, saved Customer.FILE_NAME (<[str i := Customer.to_dict n e]> (customers w)) w1).
Proof.
  unfold Customer.create_customer. py_load.
  destruct (contains (str i) (customers w)); [reflexivity|].
  cbn. by rewrite save_data_eq.
Qed.

Lemma delete_customer_run (i : pyval) (w : world) :
  Customer.delete_customer i w =
  let w1 := loaded Customer.FILE_NAME w in
  if contains (str i) (customers w) then
    (Ret true, saved Customer.FILE_NAME (delete (str i) (customers w)) w1)
  else (Ret false, w1).
Proof.
  unfold Customer.delete_customer. py_load. rewrite contains_lookup. unfold delitem.
  destruct (customers w !! str i); [|reflexivity].
  cbn. by rewrite save_data_eq.
Qed.

Lemma modify_customer_run (i n e : pyval) (w : world) :
  Customer.modify_customer i n e w =
  let w1 := loaded Customer.FILE_NAME w in
  if contains (str i) (customers w) then
    let data :=
      if truthy n then alter (Customer.set_name n) (str i) (customers w) else customers w in
    let data := if truthy e then alter (Customer.set_email e) (str i) data else data in
    (Ret true, saved Customer.FILE_NAME data w1)
  else (Ret false, w1).
Proof.
  unfold Customer.modify_customer. py_load.
  destruct (contains (str i) (customers w)); [|reflexivity].
  cbn. by rewrite save_data_eq.
Qed.

Lemma create_reservation_run (rid cid hid : pyval) (w : world) :
  Reservation.create_reservation rid cid hid w =
  let w1 := loaded Reservation.FILE_NAME w in
  if contains (str rid) (reservations w) then
    (Ret false, log ["Error: Reservation ID already exists."] w1)
  else
    let w2 := loaded Hotel.FILE_NAME w1 in
    match hotels w !! str hid with
    | None => (Ret false, log ["Error: Hotel does not exist."] w2)
    | Some h =>
        if (0 <? available_rooms h)%Z then
          (Ret true,
           saved Reservation.FILE_NAME
             (<[str rid := mk_reservation (str cid) (str hid)]> (reservations w))
             (saved Hotel.FILE_NAME
                (<[str hid := Hotel.set_available_rooms (available_rooms h - 1) h]> (hotels w))
                w2))
        else (Ret false, log ["Error: No rooms available."] w2)
    end.
Proof.
  unfold Reservation.create_reservation. py_load.
  destruct (contains (str rid) (reservations w)); [reflexivity|].
  py_load. rewrite contains_lookup. unfold getitem.
  destruct (hotels w !! str hid) as [h|]; [|reflexivity].
  cbn. destruct (0 <? available_rooms h)%Z; [|reflexivity].
  cbn. by rewrite !save_data_eq.
Qed.

Lemma cancel_reservation_run (rid : pyval) (w : world) :
  Reservation.cancel_reservation rid w =
  let w1 := loaded Reservation.FILE_NAME w in
  match reservations w !! str rid with
  | None => (Ret false, log ["Error: Reservation not found."] w1)
  | Some r =>
      let w2 := loaded Hotel.FILE_NAME w1 in
      let w3 :=
        match hotels w !! hotel_id r with
        | Some h =>
            saved Hotel.FILE_NAME
              (<[hotel_id r := Hotel.set_available_rooms (available_rooms h + 1) h]> (hotels w))
              w2
        | None => w2
        end in
      (Ret true, saved Reservation.FILE_NAME (delete (str rid) (reservations w)) w3)
  end.
Proof.
  unfold Reservation.cancel_reservation. py_load. rewrite contains_lookup.
  unfold getitem, delitem.
  destruct (reservations w !! str rid) as [r|]; [|reflexivity].
  cbn. py_load. rewrite contains_lookup.
  destruct (hotels w !! hotel_id r) as [h|]; cbn; by rewrite ?save_data_eq.
Qed.

(** On snapshot files that are missing, garbled, unreadable or a collection
    of complete records, no mutating operation lets an exception escape: each
    returns a boolean.  (A file that parses as JSON of another shape is
    outside [file].) *)
Lemma exec_returns (o : op) (w : world) : ∃ b : bool, (exec o w).1 = Ret b.
Proof.
  destruct o as [i n l r|i|i n l|i n e|i|i n e|rid cid hid|rid]; simpl.
  - rewrite create_hotel_run. cbn zeta. destruct (contains _ _); eauto.
  - rewrite delete_hotel_run. cbn zeta. destruct (contains _ _); eauto.
  - rewrite modify_hotel_run. cbn zeta. destruct (contains _ _); eauto.
  - rewrite create_customer_run. cbn zeta. destruct (contains _ _); eauto.
  - rewrite delete_customer_run. cbn zeta. destruct (contains _ _); eauto.
  - rewrite modify_customer_run. cbn zeta. destruct (contains _ _); eauto.
  - rewrite create_reservation_run. cbn zeta. destruct (contains _ _); [eauto|].
    destruct (hotels w !! str hid) as [h|]; [|eauto].
    destruct (0 <? available_rooms h); eauto.
  - rewrite cancel_reservation_run. cbn zeta.
    destruct (reservations w !! str rid); eauto.
Qed.

(** ** Refinement: an operation that meets no fault acts as [astep] *)

Ltac fin :=
  try done; unfold hotels, customers, reservations; simpl; autorewrite with files; done.

Lemma step_abs (o : op) (w : world) :
  faults w = [] → abs (step o w) = astep o (abs w) ∧ faults (step o w) = [].
Proof.
  intros Hf. unfold step, abs.
  destruct o as [i n l r|i|i n l|i n e|i|i n e|rid cid hid|rid]; simpl.
  - rewrite create_hotel_run. cbn zeta.
    destruct (contains (str i) (hotels w)); simpl.
    + by autorewrite with files.
    + rewrite saved_hotels_ok by (by autorewrite with files); fin.
  - rewrite delete_hotel_run. cbn zeta. rewrite contains_lookup.
    destruct (hotels w !! str i) eqn:E; simpl.
    + rewrite saved_hotels_ok by (by autorewrite with files); fin.
    + autorewrite with files. by rewrite delete_id.
  - rewrite modify_hotel_run. cbn zeta. rewrite contains_lookup.
    destruct (hotels w !! str i) eqn:E; simpl.
    + rewrite saved_hotels_ok by (by autorewrite with files); fin.
    + autorewrite with files.
      assert (∀ f, alter f (str i) (hotels w) = hotels w) as Ha.
      { intros f. apply map_eq. intros k. rewrite lookup_alter.
        case_decide; subst; by rewrite ?E. }
      destruct (truthy n), (truthy l); by rewrite ?Ha.
  - rewrite create_customer_run. cbn zeta.
    destruct (contains (str i) (customers w)); simpl.
    + by autorewrite with files.
    + rewrite saved_customers_ok by (by autorewrite with files); fin.
  - rewrite delete_customer_run. cbn zeta. rewrite contains_lookup.
    destruct (customers w !! str i) eqn:E; simpl.
    + rewrite saved_customers_ok by (by autorewrite with files); fin.
    + autorewrite with files. by rewrite delete_id.
  - rewrite modify_customer_run. cbn zeta. rewrite contains_lookup.
    destruct (customers w !! str i) eqn:E; simpl.
    + rewrite saved_customers_ok by (by autorewrite with files); fin.
    + autorewrite with files.
      assert (∀ f, alter f (str i) (customers w) = customers w) as Ha.
      { intros f. apply map_eq. intros k. rewrite lookup_alter.
        case_decide; subst; by rewrite ?E. }
      destruct (truthy n), (truthy e); by rewrite ?Ha.
  - rewrite create_reservation_run. cbn zeta.
    destruct (contains (str rid) (reservations w)); simpl.
    + by autorewrite with files.
    + destruct (hotels w !! str hid) as [h|]; simpl.
      * destruct (0 <? available_rooms h)%Z; simpl.
        -- rewrite saved_reservations_ok; rewrite saved_hotels_ok;
             autorewrite with files; fin.
        -- by autorewrite with files.
      * by autorewrite with files.
  - rewrite cancel_reservation_run. cbn zeta.
    destruct (reservations w !! str rid) as [r|]; simpl.
    + destruct (hotels w !! hotel_id r) as [h|]; simpl.
      * rewrite saved_reservations_ok; rewrite saved_hotels_ok;
          autorewrite with files; fin.
      * rewrite saved_reservations_ok; autorewrite with files; fin.
    + by autorewrite with files.
Qed.

(** ** Counting the reservations of a hotel *)

Lemma booked_nonneg hid rs : 0 ≤ booked hid rs.
Proof. unfold booked. lia. Qed.

Lemma booked_insert_fresh hid k r (rs : gmap string reservation) :
  rs !! k = None →
  booked hid (<[k := r]> rs) = booked hid rs + (if decide (hotel_id r = hid) then 1 else 0).
Proof.
  intros Hk. unfold booked. case_decide as Hr.
  - rewrite map_filter_insert_True by done.
    rewrite map_size_insert_None; [lia|].
    apply map_lookup_filter_None_2. by left.
  - rewrite map_filter_insert_False by done.
    rewrite delete_id by done. lia.
Qed.

Lemma booked_delete hid k r (rs : gmap string reservation) :
  rs !! k = Some r →
  booked hid (delete k rs) = booked hid rs - (if decide (hotel_id r = hid) then 1 else 0).
Proof.
  intros Hk. unfold booked. rewrite map_filter_delete. case_decide as Hr.
  - assert (filter (λ kr : string * reservation, hotel_id kr.2 = hid) rs !! k = Some r) as Hf.
    { by apply map_lookup_filter_Some. }
    rewrite map_size_delete_Some by eauto.
    pose proof (map_size_ne_0_lookup_2 _ _ (mk_is_Some _ _ Hf)). lia.
  - rewrite map_size_delete_None; [lia|].
    apply map_lookup_filter_None_2. right. intros x Hx. simpl. congruence.
Qed.

Lemma booked_zero hid (rs : gmap string reservation) :
  booked hid rs = 0 ↔ map_Forall (fun _ r => hotel_id r ≠ hid) rs.
Proof.
  unfold booked. rewrite <- (map_empty_filter (λ kr : string * reservation, hotel_id kr.2 = hid)).
  rewrite <- map_size_empty_iff. lia.
Qed.

(** ** The invariants are preserved by the abstract transitions *)

Lemma alter_rooms_consistent (f : hotel → hotel) k hs cs rs :
  (∀ h, available_rooms (f h) = available_rooms h ∧ total_rooms (f h) = total_rooms h) →
  no_dangling (AState hs cs rs) → rooms_accounted (AState hs cs rs) →
  no_dangling (AState (alter f k hs) cs rs) ∧ rooms_accounted (AState (alter f k hs) cs rs).
Proof.
  unfold no_dangling, rooms_accounted. simpl. intros Hf Hd Ha. split.
  - intros rid r Hr. specialize (Hd rid r Hr). simpl in Hd.
    rewrite lookup_alter. case_decide; subst; [by apply fmap_is_Some|done].
  - intros hid h. rewrite lookup_alter. case_decide as Hk.
    + subst. destruct (hs !! hid) as [h0|] eqn:E; [|done]. simpl.
      intros [= <-]. destruct (Hf h0) as [-> ->]. by apply Ha.
    + apply Ha.
Qed.

Lemma astep_consistent (o : op) (s : astate) :
  no_dangling s → rooms_accounted s → keeps_references o s →
  no_dangling (astep o s) ∧ rooms_accounted (astep o s).
Proof.
  destruct s as [hs cs rs]. intros Hd Ha Hsafe.
  destruct o as [i n l r|i|i n l|i n e|i|i n e|rid cid hid|rid]; simpl.
  - (* create_hotel *)
    rewrite contains_lookup. destruct (hs !! str i) eqn:E; [done|].
    unfold no_dangling, rooms_accounted in *. simpl in *. split.
    + intros rid x Hx. specialize (Hd rid x Hx). simpl in Hd.
      rewrite lookup_insert_is_Some. destruct (decide (str i = hotel_id x)); auto.
    + intros hid h. rewrite lookup_insert. case_decide as Hk.
      * subst. intros [= <-]. simpl.
        assert (booked (str i) rs = 0) as ->; [|lia].
        apply booked_zero. intros rid x Hx Heq.
        specialize (Hd rid x Hx). simpl in Hd. rewrite Heq, E in Hd. by destruct Hd.
      * apply Ha.
  - (* delete_hotel *)
    simpl in Hsafe. apply booked_zero in Hsafe.
    unfold no_dangling, rooms_accounted in *. simpl in *. split.
    + intros rid x Hx. rewrite lookup_delete_ne; [by eapply Hd|].
      intros Heq. by eapply Hsafe.
    + intros hid h [_ Hh]%lookup_delete_Some. by apply Ha.
  - (* modify_hotel *)
    destruct (truthy n), (truthy l); try done.
    + destruct (alter_rooms_consistent (Hotel.set_name n) (str i) hs cs rs) as [? ?];
        [by intros []|done|done|].
      apply alter_rooms_consistent; [by intros []|done|done].
    + apply alter_rooms_consistent; [by intros []|done|done].
    + apply alter_rooms_consistent; [by intros []|done|done].
  - (* create_customer *)
    by destruct (contains (str i) cs).
  - done.
  - done.
  - (* create_reservation *)
    rewrite contains_lookup. destruct (rs !! str rid) eqn:Er; [done|].
    destruct (hs !! str hid) as [h|] eqn:Eh; [|done].
    destruct (0 <? available_rooms h)%Z; [|done].
    unfold no_dangling, rooms_accounted in *. simpl in *. split.
    + apply map_Forall_insert; [done|]. split.
      * simpl. rewrite lookup_insert_eq. eauto.
      * intros k x Hx. specialize (Hd k x Hx). simpl in Hd.
        rewrite lookup_insert_is_Some. destruct (decide (str hid = hotel_id x)); auto.
    + intros k x. rewrite booked_insert_fresh by done. simpl.
      rewrite lookup_insert. case_decide as Hk.
      * subst k. intros [= <-]. simpl. rewrite ?decide_True by done.
        specialize (Ha _ _ Eh). simpl in Ha. lia.
      * intros Hx. rewrite ?decide_False by done.
        specialize (Ha _ _ Hx). simpl in Ha. lia.
  - (* cancel_reservation *)
    destruct (rs !! str rid) as [r|] eqn:Er; [|done].
    unfold no_dangling, rooms_accounted in *. simpl in *. split.
    + apply map_Forall_delete. intros k x Hx. specialize (Hd k x Hx). simpl in Hd.
      destruct (hs !! hotel_id r); [|done].
      rewrite lookup_insert_is_Some. destruct (decide (hotel_id r = hotel_id x)); auto.
    + intros k x. rewrite (booked_delete _ _ _ _ Er).
      destruct (hs !! hotel_id r) as [h|] eqn:Eh.
      * rewrite lookup_insert. case_decide as Hk.
        -- subst k. intros [= <-]. simpl. rewrite ?decide_True by done.
           specialize (Ha _ _ Eh). simpl in Ha. lia.
        -- intros Hx. rewrite ?decide_False by done.
           specialize (Ha _ _ Hx). simpl in Ha. lia.
      * intros Hx. rewrite decide_False by congruence.
        specialize (Ha _ _ Hx). simpl in Ha. lia.
Qed.

(** ** Sequences of operations *)

Lemma run_cons o os w : run (o :: os) w = run os (step o w).
Proof. reflexivity. Qed.

Lemma step_consistent (o : op) (w : world) :
  faults w = [] → no_dangling (abs w) → rooms_accounted (abs w) →
  keeps_references o (abs w) →
  faults (step o w) = [] ∧ no_dangling (abs (step o w)) ∧ rooms_accounted (abs (step o w)).
Proof.
  intros Hf Hd Ha Hsafe.
  destruct (step_abs o w Hf) as [Habs Hf'].
  destruct (astep_consistent o (abs w) Hd Ha Hsafe) as [Hd' Ha'].
  rewrite <- Habs in Hd', Ha'. done.
Qed.

(** C1. For every hotel, after every completed public operation --- that
    is, after any sequence of hotel create/delete/modify, customer
    create/delete/modify and reservation create/cancel operations none of
    whose writes fails --- [available_rooms] equals [total_rooms] minus the number
    of reservations of the ledger that reference the hotel, provided that no
    reservation references a nonexistent hotel to begin with and that no
    hotel is deleted while a reservation references it. *)
Theorem rooms_accounted_after_operations (os : list op) (w : world) :
  faults w = [] → no_dangling (abs w) → rooms_accounted (abs w) → admissible os w →
  rooms_accounted (abs (run os w)).
Proof.
  intros Hf Hd Ha Hadm.
  enough (faults (run os w) = [] ∧ no_dangling (abs (run os w)) ∧
          rooms_accounted (abs (run os w))) as (_ & _ & H) by exact H.
  revert w Hf Hd Ha Hadm.
  induction os as [|o os IH]; intros w Hf Hd Ha Hadm; [done|].
  destruct Hadm as [Hsafe Hadm]. rewrite run_cons.
  destruct (step_consistent o w Hf Hd Ha Hsafe) as (Hf' & Hd' & Ha').
  by apply IH.
Qed.

Lemma rooms_accounted_after_operations_witness :
  rooms_accounted (abs (run busy_day empty_world)).
Proof.
  apply rooms_accounted_after_operations.
  - reflexivity.
  - intros k r H. vm_compute in H. discriminate.
  - intros k r H. vm_compute in H. discriminate.
  - vm_compute. repeat split.
Defined.

(** ** Bounds on the counter *)

Lemma astep_nonneg (o : op) (s : astate) :
  map_Forall (fun _ h => 0 ≤ available_rooms h) (a_hotels s) → nonneg_rooms o →
  map_Forall (fun _ h => 0 ≤ available_rooms h) (a_hotels (astep o s)).
Proof.
  destruct s as [hs cs rs]. simpl. intros Hn Ho.
  assert (∀ f k, (∀ h, available_rooms (f h) = available_rooms h) →
            ∀ m : gmap string hotel,
              map_Forall (λ _ h, 0 ≤ available_rooms h) m →
              map_Forall (λ _ h, 0 ≤ available_rooms h) (alter f k m)) as Halter.
  { intros f k Hf m Hm j h. rewrite lookup_alter. case_decide; [|apply Hm].
    subst. destruct (m !! j) as [h0|] eqn:E; [|done]. simpl.
    intros [= <-]. rewrite Hf. by apply (Hm j). }
  destruct o as [i n l r|i|i n l|i n e|i|i n e|rid cid hid|rid]; simpl.
  - destruct (contains (str i) hs); [done|]. simpl.
    apply map_Forall_insert_2; [by simpl|done].
  - by apply map_Forall_delete.
  - destruct (truthy n), (truthy l); try done.
    + apply Halter; [by intros []|]. apply Halter; [by intros []|done].
    + apply Halter; [by intros []|done].
    + apply Halter; [by intros []|done].
  - by destruct (contains (str i) cs).
  - done.
  - done.
  - destruct (contains (str rid) rs); [done|].
    destruct (hs !! str hid) as [h|] eqn:Eh; [|done].
    destruct (0 <? available_rooms h) eqn:Hpos; [|done]. simpl.
    apply map_Forall_insert_2; [simpl; lia|done].
  - destruct (rs !! str rid) as [r|]; [|done]. simpl.
    destruct (hs !! hotel_id r) as [h|] eqn:Eh; [|done].
    apply map_Forall_insert_2; [|done]. simpl. specialize (Hn _ _ Eh). simpl in Hn. lia.
Qed.

Lemma step_nonneg (o : op) (w : world) :
  faults w = [] → map_Forall (fun _ h => 0 ≤ available_rooms h) (hotels w) →
  nonneg_rooms o →
  map_Forall (fun _ h => 0 ≤ available_rooms h) (hotels (step o w)).
Proof.
  intros Hf Hn Ho. destruct (step_abs o w Hf) as [Habs _].
  change (hotels (step o w)) with (a_hotels (abs (step o w))). rewrite Habs.
  by apply astep_nonneg.
Qed.

(** C6, as the code has it.  After every sequence of public operations none
    of whose writes fails, started from a store where no reservation
    references a hotel that does not exist and where the counters are within
    bounds and agree with the ledger --- the empty store, for one ---
    [0 <= available_rooms <= total_rooms] holds for every hotel, provided that
    every hotel is created with a non-negative number of rooms and that no
    hotel is deleted while a reservation references it. *)
Theorem within_bounds_after_operations (os : list op) (w : world) :
  faults w = [] → no_dangling (abs w) → rooms_accounted (abs w) → within_bounds (abs w) →
  admissible os w → Forall nonneg_rooms os →
  within_bounds (abs (run os w)).
Proof.
  intros Hf Hd Ha Hb Hadm Hos.
  assert (map_Forall (λ _ h, 0 ≤ available_rooms h) (hotels w)) as Hn.
  { intros k h Hk. by destruct (Hb k h Hk). }
  clear Hb.
  enough (rooms_accounted (abs (run os w)) ∧
          map_Forall (λ _ h, 0 ≤ available_rooms h) (hotels (run os w))) as [Ha' Hn'].
  { intros k h Hk. specialize (Ha' k h Hk). specialize (Hn' k h Hk). simpl in *.
    pose proof (booked_nonneg k (reservations (run os w))). lia. }
  revert w Hf Hd Ha Hn Hadm.
  induction Hos as [|o os Ho Hos IH]; intros w Hf Hd Ha Hn Hadm; [done|].
  destruct Hadm as [Hsafe Hadm]. rewrite run_cons.
  destruct (step_consistent o w Hf Hd Ha Hsafe) as (Hf' & Hd' & Ha').
  apply IH; [done|done|done| |done].
  by apply step_nonneg.
Qed.

Lemma within_bounds_after_operations_witness :
  within_bounds (abs (run busy_day empty_world)).
Proof.
  apply within_bounds_after_operations.
  - reflexivity.
  - intros k r H. vm_compute in H. discriminate.
  - intros k r H. vm_compute in H. discriminate.
  - intros k r H. vm_compute in H. discriminate.
  - vm_compute. repeat split.
  - unfold busy_day. repeat constructor; simpl; lia.
Defined.

(** C6 as stated fails: deleting a hotel that a reservation references,
    creating it again and cancelling the reservation leaves 2 rooms available
    out of 1; and a hotel created with -1 rooms has -1 rooms available. *)
Lemma within_bounds_counterexample :
  ¬ within_bounds (abs (run drift empty_world)) ∧
  ¬ within_bounds (abs (run overdrawn empty_world)).
Proof.
  split.
  - intros H. specialize (H "H1" (mk_hotel (PStr "Plaza") (PStr "NYC") 1 2)).
    simpl in H. vm_compute in H. destruct (H eq_refl) as [_ Hle]. by apply Hle.
  - intros H. specialize (H "H1" (mk_hotel (PStr "Plaza") (PStr "NYC") (-1) (-1))).
    simpl in H. vm_compute in H. destruct (H eq_refl) as [Hle _]. by apply Hle.
Qed.

(** ** Creating a reservation *)

Lemma last_log s w : last (stdout (log [s] w)) = Some s.
Proof. simpl. apply last_snoc. Qed.

(** C2, as the code has it.  [create_reservation] checks its failure
    conditions in this order and stops at the first that applies: it fails
    if [res_id] is already a key of the ledger, then if [hotel_id] is not a
    key of the hotel collection, then if the hotel's [available_rooms] is not
    greater than 0 (zero or negative).  Otherwise it decrements
    [available_rooms] by exactly 1 and saves the hotel snapshot, then inserts
    the record under [res_id] and saves the ledger snapshot, and returns
    [True]; when no write fails the two files hold the updated
    collections. *)
Theorem create_reservation_order (rid cid hid : pyval) (w : world) :
  let r := Reservation.create_reservation rid cid hid w in
  (is_Some (reservations w !! str rid) →
   r.1 = Ret false ∧ last (stdout r.2) = Some "Error: Reservation ID already exists.") ∧
  (reservations w !! str rid = None → hotels w !! str hid = None →
   r.1 = Ret false ∧ last (stdout r.2) = Some "Error: Hotel does not exist.") ∧
  (∀ h, reservations w !! str rid = None → hotels w !! str hid = Some h →
        available_rooms h ≤ 0 →
        r.1 = Ret false ∧ last (stdout r.2) = Some "Error: No rooms available.") ∧
  (∀ h, reservations w !! str rid = None → hotels w !! str hid = Some h →
        0 < available_rooms h →
        let hotel_data :=
          <[str hid := Hotel.set_available_rooms (available_rooms h - 1) h]> (hotels w) in
        let res_data :=
          <[str rid := mk_reservation (str cid) (str hid)]> (reservations w) in
        r.1 = Ret true ∧
        r.2 = saved Reservation.FILE_NAME res_data
                (saved Hotel.FILE_NAME hotel_data
                   (loaded Hotel.FILE_NAME (loaded Reservation.FILE_NAME w))) ∧
        (faults w = [] →
         hotels_json r.2 = Doc hotel_data ∧ reservations_json r.2 = Doc res_data ∧
         customers_json r.2 = customers_json w)).
Proof.
  cbn zeta. rewrite create_reservation_run. cbn zeta. rewrite contains_lookup.
  split; [|split; [|split]].
  - intros [x ->]. split; [done|apply last_log].
  - intros -> ->. split; [done|apply last_log].
  - intros h -> -> Hle. replace (0 <? available_rooms h) with false by lia.
    split; [done|apply last_log].
  - intros h -> -> Hlt. replace (0 <? available_rooms h) with true by lia.
    split; [done|]. split; [done|]. intros Hf. simpl.
    rewrite saved_reservations_ok; rewrite saved_hotels_ok; by autorewrite with files.
Qed.

Lemma create_reservation_order_witness :
  (Reservation.create_reservation (PStr "R1") (PStr "C2") (PStr "H1") plaza_full).1 = Ret false ∧
  (Reservation.create_reservation (PStr "R1") (PStr "C1") (PStr "H9") plaza).1 = Ret false ∧
  (Reservation.create_reservation (PStr "R2") (PStr "C1") (PStr "H1") plaza_full).1 = Ret false ∧
  (Reservation.create_reservation (PStr "R1") (PStr "C1") (PStr "H1") plaza).1 = Ret true.
Proof.
  split; [|split; [|split]].
  - apply (proj1 (create_reservation_order (PStr "R1") (PStr "C2") (PStr "H1") plaza_full)).
    exists (mk_reservation "C1" "H1"). reflexivity.
  - apply (proj1 (proj2 (create_reservation_order (PStr "R1") (PStr "C1") (PStr "H9") plaza)));
      reflexivity.
  - apply (proj1 (proj2 (proj2
      (create_reservation_order (PStr "R2") (PStr "C1") (PStr "H1") plaza_full)))
      (mk_hotel (PStr "Plaza") (PStr "NYC") 1 0)); [reflexivity|reflexivity|simpl; lia].
  - apply (proj2 (proj2 (proj2
      (create_reservation_order (PStr "R1") (PStr "C1") (PStr "H1") plaza)))
      (mk_hotel (PStr "Plaza") (PStr "NYC") 1 1)); [reflexivity|reflexivity|simpl; lia].
Defined.

(** C2 as stated fails when the counter is negative: the reservation id is
    fresh, the hotel exists and its [available_rooms] is -1, not 0, yet the
    creation fails. *)
Lemma create_reservation_order_counterexample :
  let w := run overdrawn empty_world in
  reservations w !! "R1" = None ∧
  (∃ h, hotels w !! "H1" = Some h ∧ available_rooms h ≠ 0) ∧
  (Reservation.create_reservation (PStr "R1") (PStr "C1") (PStr "H1") w).1 = Ret false.
Proof.
  cbn zeta. split; [reflexivity|]. split; [|reflexivity].
  exists (mk_hotel (PStr "Plaza") (PStr "NYC") (-1) (-1)). split; [reflexivity|]. simpl. lia.
Qed.

(** C3.  Whenever [create_reservation] fails --- the reservation id is a
    duplicate, the hotel does not exist, or its [available_rooms] is 0 --- it
    returns [False] and leaves the three snapshot files, and so every counter,
    as they were. *)
Theorem create_reservation_failure_unchanged (rid cid hid : pyval) (w : world) :
  let r := Reservation.create_reservation rid cid hid w in
  (is_Some (reservations w !! str rid) ∨
   hotels w !! str hid = None ∨
   (∃ h, hotels w !! str hid = Some h ∧ available_rooms h = 0) →
   r.1 = Ret false) ∧
  (r.1 = Ret false →
   hotels_json r.2 = hotels_json w ∧
   customers_json r.2 = customers_json w ∧
   reservations_json r.2 = reservations_json w).
Proof.
  cbn zeta. rewrite create_reservation_run. cbn zeta. rewrite contains_lookup.
  split.
  - intros [[x ->]|[H|(h & H & Hz)]]; [done| |].
    + destruct (reservations w !! str rid); [done|]. by rewrite H.
    + destruct (reservations w !! str rid); [done|]. rewrite H.
      by replace (0 <? available_rooms h) with false by lia.
  - destruct (reservations w !! str rid).
    { intros _. simpl. by autorewrite with files. }
    destruct (hotels w !! str hid) as [h|].
    2: { intros _. simpl. by autorewrite with files. }
    destruct (0 <? available_rooms h); [done|].
    intros _. simpl. by autorewrite with files.
Qed.

Lemma create_reservation_failure_unchanged_witness :
  let r := Reservation.create_reservation (PStr "R2") (PStr "C1") (PStr "H1") plaza_full in
  r.1 = Ret false ∧
  hotels_json r.2 = hotels_json plaza_full ∧
  customers_json r.2 = customers_json plaza_full ∧
  reservations_json r.2 = reservations_json plaza_full.
Proof.
  cbn zeta.
  pose proof (create_reservation_failure_unchanged
                (PStr "R2") (PStr "C1") (PStr "H1") plaza_full) as [Hfail Hsame].
  assert ((Reservation.create_reservation (PStr "R2") (PStr "C1") (PStr "H1") plaza_full).1
          = Ret false) as Hr.
  { apply Hfail. right. right.
    exists (mk_hotel (PStr "Plaza") (PStr "NYC") 1 0). split; reflexivity. }
  split; [exact Hr|]. apply Hsame. exact Hr.
Defined.

(** ** Cancelling a reservation *)

(** C4.  [cancel_reservation] fails exactly when [res_id] is absent from the
    ledger.  When it succeeds it removes [res_id] from the ledger, and it
    increments the [available_rooms] of the referenced hotel by exactly 1 only
    when that hotel still is in the hotel collection: the hotel then has its
    former name, location and [total_rooms] and one more room available, and
    every other hotel is as it was.  If the hotel was deleted, the increment
    is skipped without a message, the hotel file is not written, the
    reservation is removed all the same and the operation returns [True]. *)
Theorem cancel_reservation_spec (rid : pyval) (w : world) :
  let r := Reservation.cancel_reservation rid w in
  (r.1 = Ret false ↔ reservations w !! str rid = None) ∧
  (r.1 = Ret true ↔ is_Some (reservations w !! str rid)) ∧
  (∀ x h, reservations w !! str rid = Some x → hotels w !! hotel_id x = Some h →
          faults w = [] →
          reservations r.2 = delete (str rid) (reservations w) ∧
          hotels r.2 =
            <[hotel_id x := Hotel.set_available_rooms (available_rooms h + 1) h]> (hotels w) ∧
          hotels r.2 !! hotel_id x =
            Some (mk_hotel (name h) (location h) (total_rooms h) (available_rooms h + 1)) ∧
          (∀ k, k ≠ hotel_id x → hotels r.2 !! k = hotels w !! k)) ∧
  (∀ x, reservations w !! str rid = Some x → hotels w !! hotel_id x = None →
        r.2 = saved Reservation.FILE_NAME (delete (str rid) (reservations w))
                (loaded Hotel.FILE_NAME (loaded Reservation.FILE_NAME w)) ∧
        hotels_json r.2 = hotels_json w ∧
        (faults w = [] → reservations r.2 = delete (str rid) (reservations w))).
Proof.
  cbn zeta. rewrite cancel_reservation_run. cbn zeta.
  split; [|split; [|split]].
  - destruct (reservations w !! str rid); simpl; split; done.
  - destruct (reservations w !! str rid); simpl; split; done.
  - intros x h -> -> Hf. simpl.
    rewrite saved_reservations_ok; rewrite saved_hotels_ok; autorewrite with files;
      try done.
    split; [done|]. split; [done|]. split.
    + unfold hotels at 1. simpl. by rewrite lookup_insert_eq.
    + intros k Hk. unfold hotels at 1. simpl. by rewrite lookup_insert_ne.
  - intros x -> ->. simpl. split; [done|]. split.
    + destruct (saved_reservations_files (delete (str rid) (reservations w))
                  (loaded Hotel.FILE_NAME (loaded Reservation.FILE_NAME w))) as [-> _].
      by autorewrite with files.
    + intros Hf. rewrite saved_reservations_ok; by autorewrite with files.
Qed.

Lemma cancel_reservation_spec_witness :
  hotels plaza_full !! "H1" = Some (mk_hotel (PStr "Plaza") (PStr "NYC") 1 0) ∧
  (Reservation.cancel_reservation (PStr "R1") plaza_full).1 = Ret true ∧
  hotels (Reservation.cancel_reservation (PStr "R1") plaza_full).2 !! "H1"
    = Some (mk_hotel (PStr "Plaza") (PStr "NYC") 1 1) ∧
  reservations (Reservation.cancel_reservation (PStr "R1") plaza_full).2 = ∅ ∧
  (Reservation.cancel_reservation (PStr "R1") plaza_gone).1 = Ret true ∧
  reservations (Reservation.cancel_reservation (PStr "R1") plaza_gone).2 = ∅ ∧
  (Reservation.cancel_reservation (PStr "R7") plaza_full).1 = Ret false.
Proof.
  pose proof (cancel_reservation_spec (PStr "R1") plaza_full) as (_ & Hok & Hinc & _).
  pose proof (cancel_reservation_spec (PStr "R1") plaza_gone) as (_ & Hok' & _ & Hskip).
  pose proof (cancel_reservation_spec (PStr "R7") plaza_full) as (Hko & _).
  cbn zeta in *.
  split; [reflexivity|].
  split; [apply Hok; by exists (mk_reservation "C1" "H1")|].
  destruct (Hinc (mk_reservation "C1" "H1") (mk_hotel (PStr "Plaza") (PStr "NYC") 1 0))
    as (Hled & _ & Hrec & _); [reflexivity|reflexivity|reflexivity|].
  split; [exact Hrec|].
  split; [rewrite Hled; reflexivity|].
  split; [apply Hok'; by exists (mk_reservation "C1" "H1")|].
  split.
  { destruct (Hskip (mk_reservation "C1" "H1")) as (_ & _ & ->); reflexivity. }
  apply Hko. reflexivity.
Defined.

(** ** Round trip *)

Lemma quiet_step (hid : string) (o : op) (w : world) (h : hotel) :
  faults w = [] → quiet hid o → hotels w !! hid = Some h →
  faults (step o w) = [] ∧ reservations (step o w) = reservations w ∧
  ∃ h', hotels (step o w) !! hid = Some h' ∧ available_rooms h' = available_rooms h.
Proof.
  intros Hf Hq Hh. destruct (step_abs o w Hf) as [Habs Hf']. split; [done|].
  change (reservations (step o w)) with (a_reservations (abs (step o w))).
  change (hotels (step o w)) with (a_hotels (abs (step o w))).
  rewrite Habs. unfold abs.
  destruct o as [i n l r|i|i n l|i n e|i|i n e|rid cid hid'|rid]; simpl in *; try done.
  - rewrite contains_lookup. destruct (hotels w !! str i) eqn:E; simpl; [eauto|].
    split; [done|]. exists h. rewrite lookup_insert_ne; [done|]. congruence.
  - split; [done|]. exists h. by rewrite lookup_delete_ne.
  - split; [done|].
    assert (∀ f (m : gmap string hotel) h0,
              (∀ x, available_rooms (f x) = available_rooms x) →
              m !! hid = Some h0 →
              ∃ h', alter f (str i) m !! hid = Some h' ∧
                    available_rooms h' = available_rooms h0) as Halter.
    { intros f m h0 Hfa Hm. rewrite lookup_alter. case_decide as Heq.
      - rewrite Heq, Hm. simpl. eauto.
      - eauto. }
    destruct (truthy n), (truthy l); [|apply Halter; [by intros []|done]..|eauto].
    destruct (Halter (Hotel.set_name n) (hotels w) h) as (h1 & Hh1 & Ha1);
      [by intros []|done|].
    destruct (Halter (Hotel.set_location l) _ h1 ltac:(by intros []) Hh1)
      as (h2 & Hh2 & Ha2).
    exists h2. split; [done|congruence].
  - destruct (contains (str i) (customers w)); simpl; eauto.
  - eauto.
  - eauto.
Qed.

Lemma quiet_run (hid : string) (os : list op) (w : world) (h : hotel) :
  faults w = [] → Forall (quiet hid) os → hotels w !! hid = Some h →
  faults (run os w) = [] ∧ reservations (run os w) = reservations w ∧
  ∃ h', hotels (run os w) !! hid = Some h' ∧ available_rooms h' = available_rooms h.
Proof.
  revert w h. induction os as [|o os IH]; intros w h Hf Hos Hh; [eauto|].
  apply Forall_cons in Hos as [Ho Hos]. rewrite run_cons.
  destruct (quiet_step hid o w h Hf Ho Hh) as (Hf1 & Hr1 & h1 & Hh1 & Ha1).
  destruct (IH (step o w) h1 Hf1 Hos Hh1) as (Hf2 & Hr2 & h2 & Hh2 & Ha2).
  split; [done|]. split; [congruence|]. exists h2. split; [done|congruence].
Qed.

(** C5.  A reservation is created successfully against a hotel, with no
    write failing; later, with no other reservation created or cancelled and
    the hotel not deleted in between, so that the hotel still exists, the
    reservation is cancelled.  Then the hotel's [available_rooms] is again
    what it was immediately before the creation. *)
Theorem cancel_restores_available_rooms
    (rid cid hid : pyval) (mid : list op) (w : world) (h : hotel) :
  faults w = [] →
  hotels w !! str hid = Some h →
  (Reservation.create_reservation rid cid hid w).1 = Ret true →
  Forall (quiet (str hid)) mid →
  let w1 := run mid (Reservation.create_reservation rid cid hid w).2 in
  is_Some (hotels w1 !! str hid) ∧
  (Reservation.cancel_reservation rid w1).1 = Ret true ∧
  available_rooms <$> hotels (Reservation.cancel_reservation rid w1).2 !! str hid
    = Some (available_rooms h).
Proof.
  intros Hf Hh Hok Hmid.
  pose proof (step_abs (CreateReservation rid cid hid) w Hf) as [Habs Hf1].
  unfold step in Habs, Hf1. simpl in Habs, Hf1.
  rewrite create_reservation_run in Hok. cbn zeta in Hok.
  unfold abs in Habs at 2. simpl in Habs.
  destruct (contains (str rid) (reservations w)); [done|].
  rewrite Hh in Hok, Habs.
  destruct (0 <? available_rooms h); [|done].
  set (w0 := (Reservation.create_reservation rid cid hid w).2) in *.
  injection Habs as Hhs _ Hrs.
  assert (hotels w0 !! str hid =
          Some (Hotel.set_available_rooms (available_rooms h - 1) h)) as Hh0.
  { rewrite Hhs. apply lookup_insert_eq. }
  destruct (quiet_run (str hid) mid w0 _ Hf1 Hmid Hh0) as (Hf2 & Hr2 & h2 & Hh2 & Ha2).
  cbn zeta. split; [eauto|].
  assert (reservations (run mid w0) !! str rid
          = Some (mk_reservation (str cid) (str hid))) as Hr.
  { rewrite Hr2, Hrs. apply lookup_insert_eq. }
  rewrite cancel_reservation_run. cbn zeta. rewrite Hr. simpl. rewrite Hh2.
  split; [done|].
  rewrite saved_reservations_ok; rewrite saved_hotels_ok; autorewrite with files; try done.
  unfold hotels at 1. simpl. rewrite lookup_insert_eq. simpl in *. f_equal. lia.
Qed.

Lemma cancel_restores_available_rooms_witness :
  let w1 := run [ModifyHotel (PStr "H1") (PStr "Grand Plaza") PNone;
                 DeleteCustomer (PStr "C1")]
              (Reservation.create_reservation (PStr "R1") (PStr "C1") (PStr "H1") plaza).2 in
  available_rooms <$> hotels (Reservation.cancel_reservation (PStr "R1") w1).2 !! "H1"
    = Some 1.
Proof.
  cbn zeta.
  apply (cancel_restores_available_rooms (PStr "R1") (PStr "C1") (PStr "H1")
           [ModifyHotel (PStr "H1") (PStr "Grand Plaza") PNone; DeleteCustomer (PStr "C1")]
           plaza (mk_hotel (PStr "Plaza") (PStr "NYC") 1 1)).
  - reflexivity.
  - reflexivity.
  - reflexivity.
  - repeat constructor.
Defined.

(** ** The customer collection plays no part in a reservation *)

Lemma loaded_store_customers {A} (f : slot A) cf w :
  (∀ w', content f (store Customer.FILE_NAME cf w') = content f w') →
  loaded f (store Customer.FILE_NAME cf w) = store Customer.FILE_NAME cf (loaded f w).
Proof.
  intros Hc. unfold loaded. rewrite !load_data_run. unfold snd. rewrite Hc.
  destruct (content f w); reflexivity.
Qed.

Lemma saved_hotels_store_customers d cf w :
  saved Hotel.FILE_NAME d (store Customer.FILE_NAME cf w)
  = store Customer.FILE_NAME cf (saved Hotel.FILE_NAME d w).
Proof.
  unfold saved. rewrite !save_data_run. simpl. destruct (faults w) as [|[]]; reflexivity.
Qed.

Lemma saved_reservations_store_customers d cf w :
  saved Reservation.FILE_NAME d (store Customer.FILE_NAME cf w)
  = store Customer.FILE_NAME cf (saved Reservation.FILE_NAME d w).
Proof.
  unfold saved. rewrite !save_data_run. simpl. destruct (faults w) as [|[]]; reflexivity.
Qed.

(** C9.  [create_reservation] never consults the customer collection: run
    against any other content of the customer file it returns the same
    result and makes the same changes.  So for every [customer_id], present
    in the collection or not, if [res_id] is fresh and the hotel exists with
    [available_rooms > 0], the creation succeeds and, when no write fails,
    stores the reservation referencing [str(customer_id)]. *)
Theorem create_reservation_ignores_customers (rid cid hid : pyval) (w : world) :
  let r := Reservation.create_reservation rid cid hid w in
  (∀ cf : file customer,
     Reservation.create_reservation rid cid hid (store Customer.FILE_NAME cf w)
     = (r.1, store Customer.FILE_NAME cf r.2)) ∧
  (∀ h, reservations w !! str rid = None → hotels w !! str hid = Some h →
        0 < available_rooms h →
        r.1 = Ret true ∧
        customers_json r.2 = customers_json w ∧
        (faults w = [] →
         reservations r.2 !! str rid = Some (mk_reservation (str cid) (str hid)))).
Proof.
  cbn zeta. split.
  - intros cf. rewrite !create_reservation_run. cbn zeta.
    change (reservations (store Customer.FILE_NAME cf w)) with (reservations w).
    change (hotels (store Customer.FILE_NAME cf w)) with (hotels w).
    rewrite !loaded_store_customers by done.
    destruct (contains (str rid) (reservations w)); [done|].
    destruct (hotels w !! str hid) as [h|]; [|done].
    destruct (0 <? available_rooms h); [|done].
    by rewrite saved_hotels_store_customers, saved_reservations_store_customers.
  - intros h Hr Hh Hpos. rewrite create_reservation_run. cbn zeta.
    rewrite contains_lookup, Hr, Hh.
    replace (0 <? available_rooms h) with true by lia. simpl.
    split; [done|]. split.
    + destruct (saved_reservations_files
                  (<[str rid:=mk_reservation (str cid) (str hid)]> (reservations w))
                  (saved Hotel.FILE_NAME
                     (<[str hid:=Hotel.set_available_rooms (available_rooms h - 1) h]>
                        (hotels w))
                     (loaded Hotel.FILE_NAME (loaded Reservation.FILE_NAME w))))
        as (_ & -> & _).
      destruct (saved_hotels_files
                  (<[str hid:=Hotel.set_available_rooms (available_rooms h - 1) h]>
                     (hotels w))
                  (loaded Hotel.FILE_NAME (loaded Reservation.FILE_NAME w)))
        as (_ & -> & _).
      by autorewrite with files.
    + intros Hf. rewrite saved_reservations_ok.
      * unfold reservations. simpl. apply lookup_insert_eq.
      * rewrite saved_hotels_ok; by autorewrite with files.
Qed.

Lemma create_reservation_ignores_customers_witness :
  customers plaza !! "C404" = None ∧
  let r := Reservation.create_reservation (PStr "R1") (PStr "C404") (PStr "H1") plaza in
  r.1 = Ret true ∧ reservations r.2 !! "R1" = Some (mk_reservation "C404" "H1").
Proof.
  split; [reflexivity|]. cbn zeta.
  destruct (create_reservation_ignores_customers (PStr "R1") (PStr "C404") (PStr "H1") plaza)
    as [_ Hok].
  destruct (Hok (mk_hotel (PStr "Plaza") (PStr "NYC") 1 1)) as (Hr & _ & Hs);
    [reflexivity|reflexivity|simpl; lia|].
  split; [exact Hr|]. apply Hs. reflexivity.
Defined.

(** ** Modifying a record *)

Lemma truthy_not_empty v : truthy v = true → v ≠ PStr EmptyString.
Proof. by intros H ->. Qed.

Lemma modified_hotel_lookup (n l : pyval) k (hs : gmap string hotel) j :
  (if truthy l then alter (Hotel.set_location l) k
                      (if truthy n then alter (Hotel.set_name n) k hs else hs)
   else (if truthy n then alter (Hotel.set_name n) k hs else hs)) !! j
  = (if decide (k = j)
     then (fun h => let h := if truthy n then Hotel.set_name n h else h in
                    if truthy l then Hotel.set_location l h else h) <$> hs !! j
     else hs !! j).
Proof.
  destruct (truthy n), (truthy l); rewrite ?lookup_alter;
    repeat case_decide; subst; try done; by destruct (hs !! j).
Qed.

Lemma modified_customer_lookup (n e : pyval) k (cs : gmap string customer) j :
  (if truthy e then alter (Customer.set_email e) k
                      (if truthy n then alter (Customer.set_name n) k cs else cs)
   else (if truthy n then alter (Customer.set_name n) k cs else cs)) !! j
  = (if decide (k = j)
     then (fun c => let c := if truthy n then Customer.set_name n c else c in
                    if truthy e then Customer.set_email e c else c) <$> cs !! j
     else cs !! j).
Proof.
  destruct (truthy n), (truthy e); rewrite ?lookup_alter;
    repeat case_decide; subst; try done; by destruct (cs !! j).
Qed.

(** C10.  [None] and the empty string are falsy.  For [modify_hotel] and
    [modify_customer] on an existing id, the operation returns [True], and
    when its write succeeds a falsy argument leaves the corresponding stored
    field as it was.  Whatever the arguments and whatever happens to the
    write, a field that is the empty string after the operation was the
    empty string before: modify never sets a field to the empty string. *)
Theorem modify_skips_falsy_arguments :
  truthy PNone = false ∧ truthy (PStr EmptyString) = false ∧
  (∀ i n l w h,
     hotels w !! str i = Some h →
     let r := Hotel.modify_hotel i n l w in
     r.1 = Ret true ∧
     (faults w = [] →
      ∃ h', hotels r.2 !! str i = Some h' ∧
            (truthy n = false → name h' = name h) ∧
            (truthy l = false → location h' = location h))) ∧
  (∀ i n l w k h',
     hotels (Hotel.modify_hotel i n l w).2 !! k = Some h' →
     ∃ h, hotels w !! k = Some h ∧
          (name h' = PStr EmptyString → name h = PStr EmptyString) ∧
          (location h' = PStr EmptyString → location h = PStr EmptyString)) ∧
  (∀ i n e w c,
     customers w !! str i = Some c →
     let r := Customer.modify_customer i n e w in
     r.1 = Ret true ∧
     (faults w = [] →
      ∃ c', customers r.2 !! str i = Some c' ∧
            (truthy n = false → cust_name c' = cust_name c) ∧
            (truthy e = false → email c' = email c))) ∧
  (∀ i n e w k c',
     customers (Customer.modify_customer i n e w).2 !! k = Some c' →
     ∃ c, customers w !! k = Some c ∧
          (cust_name c' = PStr EmptyString → cust_name c = PStr EmptyString) ∧
          (email c' = PStr EmptyString → email c = PStr EmptyString)).
Proof.
  split; [done|]. split; [done|]. split; [|split; [|split]].
  - intros i n l w h Hh. cbn zeta. rewrite modify_hotel_run. cbn zeta.
    rewrite contains_lookup, Hh. split; [done|]. intros Hf. simpl.
    rewrite saved_hotels_ok by (by autorewrite with files).
    unfold hotels at 1. simpl. rewrite modified_hotel_lookup, decide_True, Hh by done.
    simpl. eexists. split; [done|].
    split; intros ->; [by destruct (truthy l)|by destruct (truthy n)].
  - intros i n l w k h'. rewrite modify_hotel_run. cbn zeta. rewrite contains_lookup.
    destruct (hotels w !! str i) as [h0|] eqn:Hi; simpl.
    2: { autorewrite with files. eauto. }
    unfold hotels at 1.
    destruct (saved_hotels_files
                (if truthy l
                 then alter (Hotel.set_location l) (str i)
                        (if truthy n then alter (Hotel.set_name n) (str i) (hotels w)
                         else hotels w)
                 else if truthy n then alter (Hotel.set_name n) (str i) (hotels w)
                      else hotels w)
                (loaded Hotel.FILE_NAME w)) as [[->| [->| ->]] _]; simpl.
    + rewrite modified_hotel_lookup. case_decide as Hk; [|eauto].
      subst k. rewrite Hi. simpl. intros [= <-]. exists h0. split; [done|].
      destruct (truthy n) eqn:Hn, (truthy l) eqn:Hl; simpl; split; try done;
        intros ->; by try (apply truthy_not_empty in Hn); try (apply truthy_not_empty in Hl).
    + by rewrite lookup_empty.
    + autorewrite with files. fold (hotels w). eauto.
  - intros i n e w c Hc. cbn zeta. rewrite modify_customer_run. cbn zeta.
    rewrite contains_lookup, Hc. split; [done|]. intros Hf. simpl.
    rewrite saved_customers_ok by (by autorewrite with files).
    unfold customers at 1. simpl. rewrite modified_customer_lookup, decide_True, Hc by done.
    simpl. eexists. split; [done|].
    split; intros ->; [by destruct (truthy e)|by destruct (truthy n)].
  - intros i n e w k c'. rewrite modify_customer_run. cbn zeta. rewrite contains_lookup.
    destruct (customers w !! str i) as [c0|] eqn:Hi; simpl.
    2: { autorewrite with files. eauto. }
    unfold customers at 1.
    destruct (saved_customers_files
                (if truthy e
                 then alter (Customer.set_email e) (str i)
                        (if truthy n then alter (Customer.set_name n) (str i) (customers w)
                         else customers w)
                 else if truthy n then alter (Customer.set_name n) (str i) (customers w)
                      else customers w)
                (loaded Customer.FILE_NAME w)) as (_ & [->| [->| ->]] & _); simpl.
    + rewrite modified_customer_lookup. case_decide as Hk; [|eauto].
      subst k. rewrite Hi. simpl. intros [= <-]. exists c0. split; [done|].
      destruct (truthy n) eqn:Hn, (truthy e) eqn:He; simpl; split; try done;
        intros ->; by try (apply truthy_not_empty in Hn); try (apply truthy_not_empty in He).
    + by rewrite lookup_empty.
    + autorewrite with files. fold (customers w). eauto.
Qed.

Lemma modify_skips_falsy_arguments_witness :
  let r := Hotel.modify_hotel (PStr "H1") (PStr EmptyString) PNone plaza in
  r.1 = Ret true ∧
  ∃ h', hotels r.2 !! "H1" = Some h' ∧ name h' = PStr "Plaza" ∧ location h' = PStr "NYC".
Proof.
  cbn zeta.
  destruct modify_skips_falsy_arguments as (_ & _ & Hmod & _).
  destruct (Hmod (PStr "H1") (PStr EmptyString) PNone plaza (mk_hotel (PStr "Plaza") (PStr "NYC") 1 1))
    as [Hr Hs]; [reflexivity|].
  split; [exact Hr|].
  destruct Hs as (h' & Hh' & Hn & Hl); [reflexivity|].
  exists h'. split; [exact Hh'|]. split; [apply Hn|apply Hl]; reflexivity.
Defined.

(** ** Saving and loading *)

(** C7, as the code has it.  [save_data] never lets a failed write escape
    as an exception, and it returns [None] whether the write succeeded or
    failed: a failure is reported only by a message printed on standard
    output, and the result value does not tell a failed save from a
    successful one. *)
Theorem save_data_returns_none {A} (f : slot A) (data : gmap string A) (w : world) :
  let r := DataManager.save_data f data w in
  r.1 = Ret PNone ∧
  (∀ e rest, faults w = OpenFails e :: rest →
     r.2 = log ["Unexpected error saving to " +:+ filename f +:+ ": " +:+ e]
             (set_faults rest w)) ∧
  (∀ e rest, faults w = WriteFails e :: rest →
     r.2 = log ["Unexpected error saving to " +:+ filename f +:+ ": " +:+ e]
             (store f Invalid (set_faults rest w))) ∧
  (faults w = [] → r.2 = store f (Doc data) w) ∧
  (∀ rest, faults w = NoFault :: rest → r.2 = store f (Doc data) (set_faults rest w)).
Proof.
  cbn zeta. rewrite save_data_run. simpl.
  split; [done|]. split; [|split; [|split]].
  - by intros e rest ->.
  - by intros e rest ->.
  - by intros ->.
  - by intros rest ->.
Qed.

Lemma save_data_returns_none_witness :
  (DataManager.save_data Hotel.FILE_NAME ∅ read_only).1 = Ret PNone ∧
  stdout (DataManager.save_data Hotel.FILE_NAME ∅ read_only).2
    = ["Unexpected error saving to hotels.json: Permission denied"] ∧
  hotels_json (DataManager.save_data Hotel.FILE_NAME ∅ disk_full).2 = Invalid ∧
  hotels_json (DataManager.save_data Hotel.FILE_NAME ∅ empty_world).2 = Doc ∅.
Proof.
  pose proof (save_data_returns_none Hotel.FILE_NAME ∅ read_only) as (Hr & Hopen & _).
  pose proof (save_data_returns_none Hotel.FILE_NAME ∅ disk_full) as (_ & _ & Hwrite & _).
  pose proof (save_data_returns_none Hotel.FILE_NAME ∅ empty_world) as (_ & _ & _ & Hok & _).
  cbn zeta in *.
  split; [exact Hr|].
  split; [by rewrite (Hopen "Permission denied" [])|].
  split; [by rewrite (Hwrite "No space left on device" [])|].
  by rewrite Hok.
Defined.

(** C7 as stated fails: a save whose write fails and a save whose write
    succeeds return the same value. *)
Lemma save_data_counterexample :
  let ok := DataManager.save_data Hotel.FILE_NAME ∅ empty_world in
  let ko := DataManager.save_data Hotel.FILE_NAME ∅ read_only in
  hotels_json ok.2 = Doc ∅ ∧ hotels_json ko.2 = Missing ∧ ko.1 = ok.1.
Proof. cbn zeta. repeat split. Qed.

(** C8.  For every snapshot file, [load_data] returns the empty collection
    when the file does not exist, and returns the empty collection after
    printing a message when the file exists but does not parse as JSON (or
    cannot be read at all); it changes nothing else, and in no case does an
    exception escape to the caller. *)
Theorem load_data_missing_or_corrupt {A} (f : slot A) (w : world) :
  (content f w = Missing → DataManager.load_data f w = (Ret ∅, w)) ∧
  (content f w = Invalid →
   DataManager.load_data f w
   = (Ret ∅, log ["Invalid JSON in " +:+ filename f +:+ ". Returning empty."] w)) ∧
  (∀ e, content f w = Unreadable e →
   DataManager.load_data f w
   = (Ret ∅, log ["Unexpected error loading " +:+ filename f +:+ ": " +:+ e] w)) ∧
  (∀ e, (DataManager.load_data f w).1 ≠ Raise e).
Proof.
  rewrite load_data_run. repeat split.
  - by intros ->.
  - by intros ->.
  - by intros e ->.
  - done.
Qed.

Lemma load_data_missing_or_corrupt_witness :
  DataManager.load_data Hotel.FILE_NAME empty_world = (Ret ∅, empty_world) ∧
  (DataManager.load_data Hotel.FILE_NAME garbled).1 = Ret ∅ ∧
  stdout (DataManager.load_data Hotel.FILE_NAME garbled).2
    = ["Invalid JSON in hotels.json. Returning empty."].
Proof.
  pose proof (load_data_missing_or_corrupt Hotel.FILE_NAME empty_world) as (Hmiss & _).
  pose proof (load_data_missing_or_corrupt Hotel.FILE_NAME garbled) as (_ & Hbad & _).
  split; [apply Hmiss; reflexivity|].
  rewrite Hbad by reflexivity. split; reflexivity.
Defined.

(** * Further properties of the operations *)

(** ** Reading a record back *)

Lemma saved_run {A} (f : slot A) (d : gmap string A) (w : world) :
  saved f d w =
  match faults w with
  | [] => store f (Doc d) w
  | NoFault :: fs => store f (Doc d) (set_faults fs w)
  | OpenFails e :: fs =>
      log ["Unexpected error saving to " +:+ filename f +:+ ": " +:+ e] (set_faults fs w)
  | WriteFails e :: fs =>
      log ["Unexpected error saving to " +:+ filename f +:+ ": " +:+ e]
        (store f Invalid (set_faults fs w))
  end.
Proof. unfold saved. by rewrite save_data_run. Qed.

Lemma loaded_run {A} (f : slot A) (w : world) :
  loaded f w =
  match content f w with
  | Invalid => log ["Invalid JSON in " +:+ filename f +:+ ". Returning empty."] w
  | Unreadable e => log ["Unexpected error loading " +:+ filename f +:+ ": " +:+ e] w
  | _ => w
  end.
Proof. unfold loaded. by rewrite load_data_run. Qed.

Lemma display_hotel_run (i : pyval) (w : world) :
  Hotel.display_hotel i w =
  (Ret match hotels w !! str i with
       | Some h => inl h
       | None => inr "Hotel not found."
       end, loaded Hotel.FILE_NAME w).
Proof. unfold Hotel.display_hotel. py_load. reflexivity. Qed.

Lemma display_customer_run (i : pyval) (w : world) :
  Customer.display_customer i w =
  (Ret match customers w !! str i with
       | Some c => inl c
       | None => inr "Customer not found."
       end, loaded Customer.FILE_NAME w).
Proof. unfold Customer.display_customer. py_load. reflexivity. Qed.

(** X1.  A hotel created under a fresh id, with the write succeeding, is
    read back by [display_hotel] with the given name and location and with
    [available_rooms = total_rooms = rooms]; the answer of [display_hotel]
    for every other id is what it was before.  This holds also when
    the hotel file was unreadable or garbled before the creation. *)
Theorem create_then_display_hotel (i n l : pyval) (r : Z) (w : world) :
  hotels w !! str i = None → faults w = [] →
  let w1 := (Hotel.create_hotel i n l r w).2 in
  (Hotel.create_hotel i n l r w).1 = Ret true ∧
  (Hotel.display_hotel i w1).1 = Ret (inl (mk_hotel n l r r)) ∧
  (∀ j, str j ≠ str i → (Hotel.display_hotel j w1).1 = (Hotel.display_hotel j w).1).
Proof.
  intros Hfresh Hf. cbn zeta. rewrite create_hotel_run. cbn zeta.
  rewrite contains_lookup, Hfresh. simpl.
  rewrite saved_hotels_ok by (by autorewrite with files).
  split; [done|]. split.
  - rewrite display_hotel_run. unfold hotels at 1. simpl. by rewrite lookup_insert_eq.
  - intros j Hj. rewrite !display_hotel_run. unfold hotels at 1. simpl.
    by rewrite lookup_insert_ne.
Qed.

Lemma create_then_display_hotel_witness :
  (Hotel.display_hotel (PInt 7)
     (Hotel.create_hotel (PInt 7) (PStr "Ritz") (PStr "Paris") 3 locked).2).1
  = Ret (inl (mk_hotel (PStr "Ritz") (PStr "Paris") 3 3)).
Proof.
  apply (create_then_display_hotel (PInt 7) (PStr "Ritz") (PStr "Paris") 3 locked);
    reflexivity.
Defined.

(** X2.  The same round trip for customers: a customer created under a
    fresh id, with the write succeeding, is read back by [display_customer]
    as given, and the other ids answer as before. *)
Theorem create_then_display_customer (i n e : pyval) (w : world) :
  customers w !! str i = None → faults w = [] →
  let w1 := (Customer.create_customer i n e w).2 in
  (Customer.create_customer i n e w).1 = Ret true ∧
  (Customer.display_customer i w1).1 = Ret (inl (mk_customer n e)) ∧
  (∀ j, str j ≠ str i →
        (Customer.display_customer j w1).1 = (Customer.display_customer j w).1).
Proof.
  intros Hfresh Hf. cbn zeta. rewrite create_customer_run. cbn zeta.
  rewrite contains_lookup, Hfresh. simpl.
  rewrite saved_customers_ok by (by autorewrite with files).
  split; [done|]. split.
  - rewrite display_customer_run. unfold customers at 1. simpl. by rewrite lookup_insert_eq.
  - intros j Hj. rewrite !display_customer_run. unfold customers at 1. simpl.
    by rewrite lookup_insert_ne.
Qed.

Lemma create_then_display_customer_witness :
  (Customer.display_customer (PStr "C2")
     (Customer.create_customer (PStr "C2") (PStr "Jane") PNone plaza).2).1
  = Ret (inl (mk_customer (PStr "Jane") PNone)).
Proof.
  apply (create_then_display_customer (PStr "C2") (PStr "Jane") PNone plaza); reflexivity.
Defined.

(** X3.  [display_hotel] and [display_customer] only read: the three
    snapshot files and the pending write faults are as before.  They return
    the stored record when the id is a key of the collection and the
    sentinel string otherwise --- so for every id when the file is missing,
    garbled or unreadable. *)
Theorem display_reads_only (i : pyval) (w : world) :
  let rh := Hotel.display_hotel i w in
  let rc := Customer.display_customer i w in
  (hotels_json rh.2 = hotels_json w ∧ customers_json rh.2 = customers_json w ∧
   reservations_json rh.2 = reservations_json w ∧ faults rh.2 = faults w) ∧
  (hotels_json rc.2 = hotels_json w ∧ customers_json rc.2 = customers_json w ∧
   reservations_json rc.2 = reservations_json w ∧ faults rc.2 = faults w) ∧
  (∀ h, hotels w !! str i = Some h → rh.1 = Ret (inl h)) ∧
  (hotels w !! str i = None → rh.1 = Ret (inr "Hotel not found.")) ∧
  (∀ c, customers w !! str i = Some c → rc.1 = Ret (inl c)) ∧
  (customers w !! str i = None → rc.1 = Ret (inr "Customer not found.")) ∧
  ((∀ d, hotels_json w ≠ Doc d) → rh.1 = Ret (inr "Hotel not found.")) ∧
  ((∀ d, customers_json w ≠ Doc d) → rc.1 = Ret (inr "Customer not found.")).
Proof.
  cbn zeta. rewrite display_hotel_run, display_customer_run. simpl.
  autorewrite with files.
  split; [done|]. split; [done|].
  split; [by intros h ->|]. split; [by intros ->|].
  split; [by intros c ->|]. split; [by intros ->|]. split.
  - intros Hh. unfold hotels. destruct (hotels_json w) as [| | |d]; simpl;
      rewrite ?lookup_empty; try done. by destruct (Hh d).
  - intros Hc. unfold customers. destruct (customers_json w) as [| | |d]; simpl;
      rewrite ?lookup_empty; try done. by destruct (Hc d).
Qed.

Lemma display_reads_only_witness :
  (Hotel.display_hotel (PStr "H1") plaza).1
    = Ret (inl (mk_hotel (PStr "Plaza") (PStr "NYC") 1 1)) ∧
  (Hotel.display_hotel (PStr "H1") garbled).1 = Ret (inr "Hotel not found.") ∧
  (Customer.display_customer (PStr "C9") plaza).1 = Ret (inr "Customer not found.").
Proof.
  pose proof (display_reads_only (PStr "H1") plaza) as (_ & _ & Hh & _).
  pose proof (display_reads_only (PStr "H1") garbled) as (_ & _ & _ & _ & _ & _ & Hg & _).
  pose proof (display_reads_only (PStr "C9") plaza) as (_ & _ & _ & _ & _ & Hc & _).
  cbn zeta in *.
  split; [apply Hh; reflexivity|]. split; [apply Hg; by intros d|]. apply Hc. reflexivity.
Defined.

(** ** Duplicates and deletions *)

(** X4.  [create_hotel] and [create_customer] refuse an id that is already a
    key of their collection: they return [False], print the error message
    last, consume no write, and leave the three snapshot files --- the
    existing record included --- as they were. *)
Theorem create_duplicate_refused (i n l : pyval) (r : Z) (w : world) :
  (is_Some (hotels w !! str i) →
   let res := Hotel.create_hotel i n l r w in
   res.1 = Ret false ∧
   last (stdout res.2) = Some ("Error: Hotel ID " +:+ str i +:+ " already exists.") ∧
   hotels_json res.2 = hotels_json w ∧ customers_json res.2 = customers_json w ∧
   reservations_json res.2 = reservations_json w ∧ faults res.2 = faults w) ∧
  (is_Some (customers w !! str i) →
   let res := Customer.create_customer i n l w in
   res.1 = Ret false ∧
   last (stdout res.2) = Some ("Error: Customer ID " +:+ str i +:+ " already exists.") ∧
   hotels_json res.2 = hotels_json w ∧ customers_json res.2 = customers_json w ∧
   reservations_json res.2 = reservations_json w ∧ faults res.2 = faults w).
Proof.
  split.
  - intros [h Hh]. cbn zeta. rewrite create_hotel_run. cbn zeta.
    rewrite contains_lookup, Hh. simpl. split; [done|]. split; [apply last_snoc|].
    by autorewrite with files.
  - intros [c Hc]. cbn zeta. rewrite create_customer_run. cbn zeta.
    rewrite contains_lookup, Hc. simpl. split; [done|]. split; [apply last_snoc|].
    by autorewrite with files.
Qed.

Lemma create_duplicate_refused_witness :
  let res := Hotel.create_hotel (PStr "H1") (PStr "Plaza 2") (PStr "LA") 50 plaza in
  res.1 = Ret false ∧ hotels_json res.2 = hotels_json plaza.
Proof.
  cbn zeta.
  destruct (create_duplicate_refused (PStr "H1") (PStr "Plaza 2") (PStr "LA") 50 plaza)
    as [Hh _].
  destruct Hh as (Hr & _ & Hs & _).
  - exists (mk_hotel (PStr "Plaza") (PStr "NYC") 1 1). reflexivity.
  - split; [exact Hr|exact Hs].
Defined.

(** X5.  [delete_hotel] succeeds exactly when the id is a key of the hotel
    collection, and never looks at the ledger: the reservation and customer
    files are left as they were.  An absent id leaves the hotel file
    untouched; a present one is removed when the write succeeds, and every
    reservation that referenced the hotel then references a hotel that does
    not exist. *)
Theorem delete_hotel_unconditional (i : pyval) (w : world) :
  let r := Hotel.delete_hotel i w in
  (r.1 = Ret true ↔ is_Some (hotels w !! str i)) ∧
  (r.1 = Ret false ↔ hotels w !! str i = None) ∧
  reservations_json r.2 = reservations_json w ∧
  customers_json r.2 = customers_json w ∧
  (hotels w !! str i = None → hotels_json r.2 = hotels_json w) ∧
  (is_Some (hotels w !! str i) → faults w = [] →
   hotels r.2 = delete (str i) (hotels w) ∧
   ∀ k x, reservations w !! k = Some x → hotel_id x = str i →
          reservations r.2 !! k = Some x ∧ hotels r.2 !! hotel_id x = None).
Proof.
  cbn zeta. rewrite delete_hotel_run. cbn zeta. rewrite contains_lookup.
  destruct (hotels w !! str i) as [h|] eqn:Hh; simpl.
  - destruct (saved_hotels_files (delete (str i) (hotels w)) (loaded Hotel.FILE_NAME w))
      as (_ & Hc & Hr).
    rewrite Hc, Hr. autorewrite with files.
    split; [split; eauto|]. split; [split; done|].
    split; [done|]. split; [done|]. split; [done|]. intros _ Hf.
    rewrite saved_hotels_ok by (by autorewrite with files).
    split; [done|]. intros k x Hk Hx.
    unfold reservations, hotels at 1. simpl. autorewrite with files.
    split; [done|]. rewrite Hx. apply lookup_delete_eq.
  - autorewrite with files.
    split; [split; [done|by intros [? ?]]|]. split; [done|].
    split; [done|]. split; [done|]. split; [done|]. by intros [? ?].
Qed.

Lemma delete_hotel_unconditional_witness :
  let r := Hotel.delete_hotel (PStr "H1") plaza_full in
  r.1 = Ret true ∧
  reservations r.2 !! "R1" = Some (mk_reservation "C1" "H1") ∧ hotels r.2 !! "H1" = None.
Proof.
  cbn zeta.
  pose proof (delete_hotel_unconditional (PStr "H1") plaza_full) as (Hok & _ & _ & _ & _ & Hdel).
  cbn zeta in *.
  assert (is_Some (hotels plaza_full !! str (PStr "H1"))) as Hex.
  { exists (mk_hotel (PStr "Plaza") (PStr "NYC") 1 0). reflexivity. }
  split; [by apply Hok|].
  destruct (Hdel Hex eq_refl) as [_ Href].
  apply (Href "R1" (mk_reservation "C1" "H1")); reflexivity.
Defined.

(** X6.  Creating a record under a fresh id and then deleting it, both
    writes succeeding, gives back the collection as it was; both operations
    return [True].  This holds for hotels and for customers. *)
Theorem create_then_delete (i n l : pyval) (r : Z) (w : world) :
  faults w = [] →
  (hotels w !! str i = None →
   let res1 := Hotel.create_hotel i n l r w in
   let res2 := Hotel.delete_hotel i res1.2 in
   res1.1 = Ret true ∧ res2.1 = Ret true ∧ hotels res2.2 = hotels w) ∧
  (customers w !! str i = None →
   let res1 := Customer.create_customer i n l w in
   let res2 := Customer.delete_customer i res1.2 in
   res1.1 = Ret true ∧ res2.1 = Ret true ∧ customers res2.2 = customers w).
Proof.
  intros Hf. split; intros Hfresh; cbn zeta.
  - rewrite create_hotel_run. cbn zeta. rewrite contains_lookup, Hfresh. simpl.
    rewrite saved_hotels_ok by (by autorewrite with files).
    match goal with |- context [Hotel.delete_hotel i ?x] => set (w1 := x) end.
    assert (hotels w1 = <[str i:=Hotel.to_dict n l r]> (hotels w)) as Hw1 by reflexivity.
    assert (faults (loaded Hotel.FILE_NAME w1) = []) as Hf1 by (by autorewrite with files).
    rewrite delete_hotel_run. cbn zeta. rewrite Hw1, contains_lookup, lookup_insert_eq.
    simpl. rewrite saved_hotels_ok by done.
    split; [done|]. split; [done|]. unfold hotels at 1. simpl.
    by rewrite delete_insert_eq, delete_id.
  - rewrite create_customer_run. cbn zeta. rewrite contains_lookup, Hfresh. simpl.
    rewrite saved_customers_ok by (by autorewrite with files).
    match goal with |- context [Customer.delete_customer i ?x] => set (w1 := x) end.
    assert (customers w1 = <[str i:=Customer.to_dict n l]> (customers w)) as Hw1
      by reflexivity.
    assert (faults (loaded Customer.FILE_NAME w1) = []) as Hf1
      by (by autorewrite with files).
    rewrite delete_customer_run. cbn zeta. rewrite Hw1, contains_lookup, lookup_insert_eq.
    simpl. rewrite saved_customers_ok by done.
    split; [done|]. split; [done|]. unfold customers at 1. simpl.
    by rewrite delete_insert_eq, delete_id.
Qed.

Lemma create_then_delete_witness :
  hotels (Hotel.delete_hotel (PInt 2)
            (Hotel.create_hotel (PInt 2) (PStr "Ritz") (PStr "Paris") 4 plaza).2).2
  = hotels plaza.
Proof.
  destruct (create_then_delete (PInt 2) (PStr "Ritz") (PStr "Paris") 4 plaza) as [Hh _];
    [reflexivity|].
  apply Hh. reflexivity.
Defined.

(** ** Which files an operation can touch *)

(** X7.  Whatever happens to the writes, a hotel operation leaves the
    customer and reservation files as they were, a customer operation leaves
    the hotel and reservation files as they were, and creating or cancelling
    a reservation leaves the customer file as it was. *)
Theorem operations_keep_to_their_files (o : op) (w : world) :
  match o with
  | CreateHotel _ _ _ _ | DeleteHotel _ | ModifyHotel _ _ _ =>
      customers_json (step o w) = customers_json w ∧
      reservations_json (step o w) = reservations_json w
  | CreateCustomer _ _ _ | DeleteCustomer _ | ModifyCustomer _ _ _ =>
      hotels_json (step o w) = hotels_json w ∧
      reservations_json (step o w) = reservations_json w
  | CreateReservation _ _ _ | CancelReservation _ =>
      customers_json (step o w) = customers_json w
  end.
Proof.
  unfold step.
  destruct o as [i n l r|i|i n l|i n e|i|i n e|rid cid hid|rid]; simpl.
  - rewrite create_hotel_run. cbn zeta. destruct (contains _ _); simpl.
    + by autorewrite with files.
    + destruct (saved_hotels_files (<[str i:=Hotel.to_dict n l r]> (hotels w))
                  (loaded Hotel.FILE_NAME w)) as (_ & -> & ->).
      by autorewrite with files.
  - rewrite delete_hotel_run. cbn zeta. destruct (contains _ _); simpl.
    + destruct (saved_hotels_files (delete (str i) (hotels w))
                  (loaded Hotel.FILE_NAME w)) as (_ & -> & ->).
      by autorewrite with files.
    + by autorewrite with files.
  - rewrite modify_hotel_run. cbn zeta. destruct (contains _ _); simpl.
    + match goal with |- context [saved Hotel.FILE_NAME ?d ?x] =>
        destruct (saved_hotels_files d x) as (_ & -> & ->) end.
      by autorewrite with files.
    + by autorewrite with files.
  - rewrite create_customer_run. cbn zeta. destruct (contains _ _); simpl.
    + by autorewrite with files.
    + match goal with |- context [saved Customer.FILE_NAME ?d ?x] =>
        destruct (saved_customers_files d x) as (-> & _ & ->) end.
      by autorewrite with files.
  - rewrite delete_customer_run. cbn zeta. destruct (contains _ _); simpl.
    + match goal with |- context [saved Customer.FILE_NAME ?d ?x] =>
        destruct (saved_customers_files d x) as (-> & _ & ->) end.
      by autorewrite with files.
    + by autorewrite with files.
  - rewrite modify_customer_run. cbn zeta. destruct (contains _ _); simpl.
    + match goal with |- context [saved Customer.FILE_NAME ?d ?x] =>
        destruct (saved_customers_files d x) as (-> & _ & ->) end.
      by autorewrite with files.
    + by autorewrite with files.
  - rewrite create_reservation_run. cbn zeta. destruct (contains _ _); simpl.
    { by autorewrite with files. }
    destruct (hotels w !! str hid) as [h|]; simpl; [|by autorewrite with files].
    destruct (0 <? available_rooms h); simpl; [|by autorewrite with files].
    match goal with |- context [saved Reservation.FILE_NAME ?d ?x] =>
      destruct (saved_reservations_files d x) as (_ & -> & _) end.
    match goal with |- context [saved Hotel.FILE_NAME ?d ?x] =>
      destruct (saved_hotels_files d x) as (_ & -> & _) end.
    by autorewrite with files.
  - rewrite cancel_reservation_run. cbn zeta.
    destruct (reservations w !! str rid) as [x|]; simpl; [|by autorewrite with files].
    match goal with |- context [saved Reservation.FILE_NAME ?d ?x] =>
      destruct (saved_reservations_files d x) as (_ & -> & _) end.
    destruct (hotels w !! hotel_id x) as [h|]; [|by autorewrite with files].
    match goal with |- context [saved Hotel.FILE_NAME ?d ?x] =>
      destruct (saved_hotels_files d x) as (_ & -> & _) end.
    by autorewrite with files.
Qed.

(** ** Modification *)

(** X8.  [modify_hotel] succeeds exactly when the id is a key of the hotel
    collection, and writes nothing otherwise.  Whatever the arguments and
    whatever happens to the write, every hotel found afterwards was there
    before with the same [total_rooms] and [available_rooms], and is unchanged
    altogether if it is not the one modified.  When the write succeeds the
    modified hotel carries each truthy argument and keeps the field of each
    falsy one. *)
Theorem modify_hotel_spec (i n l : pyval) (w : world) :
  let r := Hotel.modify_hotel i n l w in
  (r.1 = Ret true ↔ is_Some (hotels w !! str i)) ∧
  (hotels w !! str i = None → hotels_json r.2 = hotels_json w ∧ faults r.2 = faults w) ∧
  (∀ k h', hotels r.2 !! k = Some h' →
           ∃ h, hotels w !! k = Some h ∧
                total_rooms h' = total_rooms h ∧ available_rooms h' = available_rooms h ∧
                (k ≠ str i → h' = h)) ∧
  (∀ h, hotels w !! str i = Some h → faults w = [] →
        hotels r.2 !! str i =
          Some (mk_hotel (if truthy n then n else name h)
                         (if truthy l then l else location h)
                         (total_rooms h) (available_rooms h))).
Proof.
  cbn zeta. rewrite modify_hotel_run. cbn zeta. rewrite contains_lookup.
  destruct (hotels w !! str i) as [h0|] eqn:Hi; simpl.
  - split; [split; eauto|]. split; [done|]. split.
    + intros k h'. unfold hotels at 1.
      match goal with |- context [saved Hotel.FILE_NAME ?d ?x] =>
        destruct (saved_hotels_files d x) as [[->| [->| ->]] _] end; simpl.
      * rewrite modified_hotel_lookup. case_decide as Hk.
        -- subst k. rewrite Hi. simpl. intros [= <-]. exists h0. split; [done|].
           by destruct (truthy n), (truthy l).
        -- intros Hk'. exists h'. by rewrite Hk'.
      * by rewrite lookup_empty.
      * autorewrite with files. fold (hotels w). intros Hk. exists h'. by rewrite Hk.
    + intros h [= <-] Hf. rewrite saved_hotels_ok by (by autorewrite with files).
      unfold hotels at 1. simpl. rewrite modified_hotel_lookup, decide_True, Hi by done.
      simpl. f_equal. by destruct (truthy n), (truthy l), h0.
  - split; [split; [done|by intros [? ?]]|]. autorewrite with files.
    split; [done|]. split; [|done].
    intros k h' Hk. exists h'. by rewrite Hk.
Qed.

Lemma modify_hotel_spec_witness :
  hotels (Hotel.modify_hotel (PStr "H1") (PStr "Grand Plaza") PNone plaza_full).2 !! "H1"
  = Some (mk_hotel (PStr "Grand Plaza") (PStr "NYC") 1 0).
Proof.
  destruct (modify_hotel_spec (PStr "H1") (PStr "Grand Plaza") PNone plaza_full)
    as (_ & _ & _ & Hset).
  apply (Hset (mk_hotel (PStr "Plaza") (PStr "NYC") 1 0)); reflexivity.
Defined.

(** X9.  [modify_customer] succeeds exactly when the id is a key of the
    customer collection, and writes nothing otherwise.  Whatever happens to
    the write, every customer found afterwards was there before and, if it is
    not the one modified, is unchanged.  When the write succeeds the modified
    customer carries each truthy argument and keeps the field of each falsy
    one. *)
Theorem modify_customer_spec (i n e : pyval) (w : world) :
  let r := Customer.modify_customer i n e w in
  (r.1 = Ret true ↔ is_Some (customers w !! str i)) ∧
  (customers w !! str i = None →
   customers_json r.2 = customers_json w ∧ faults r.2 = faults w) ∧
  (∀ k c', customers r.2 !! k = Some c' →
           ∃ c, customers w !! k = Some c ∧ (k ≠ str i → c' = c)) ∧
  (∀ c, customers w !! str i = Some c → faults w = [] →
        customers r.2 !! str i =
          Some (mk_customer (if truthy n then n else cust_name c)
                            (if truthy e then e else email c))).
Proof.
  cbn zeta. rewrite modify_customer_run. cbn zeta. rewrite contains_lookup.
  destruct (customers w !! str i) as [c0|] eqn:Hi; simpl.
  - split; [split; eauto|]. split; [done|]. split.
    + intros k c'. unfold customers at 1.
      match goal with |- context [saved Customer.FILE_NAME ?d ?x] =>
        destruct (saved_customers_files d x) as (_ & [->| [->| ->]] & _) end; simpl.
      * rewrite modified_customer_lookup. case_decide as Hk.
        -- subst k. rewrite Hi. simpl. intros [= <-]. exists c0. by split.
        -- intros Hk'. exists c'. by rewrite Hk'.
      * by rewrite lookup_empty.
      * autorewrite with files. fold (customers w). intros Hk. exists c'. by rewrite Hk.
    + intros c [= <-] Hf. rewrite saved_customers_ok by (by autorewrite with files).
      unfold customers at 1. simpl.
      rewrite modified_customer_lookup, decide_True, Hi by done.
      simpl. f_equal. by destruct (truthy n), (truthy e), c0.
  - split; [split; [done|by intros [? ?]]|]. autorewrite with files.
    split; [done|]. split; [|done].
    intros k c' Hk. exists c'. by rewrite Hk.
Qed.

Lemma modify_customer_spec_witness :
  customers (Customer.modify_customer (PStr "C1") PNone (PStr "jd@m.com") plaza).2 !! "C1"
  = Some (mk_customer (PStr "John") (PStr "jd@m.com")).
Proof.
  destruct (modify_customer_spec (PStr "C1") PNone (PStr "jd@m.com") plaza)
    as (_ & _ & _ & Hset).
  apply (Hset (mk_customer (PStr "John") (PStr "j@x.com"))); reflexivity.
Defined.

(** ** Identifiers *)

(** X10.  Identifiers are compared after [str]: once [create_hotel] has run
    for an id, with its write succeeding, a creation under any id with the
    same [str] --- the integer 1 and the string [1], say --- is refused, and
    [display_hotel] under such an id finds the hotel. *)
Theorem ids_meet_through_str (i j n l n' l' : pyval) (r r' : Z) (w : world) :
  str i = str j → faults w = [] →
  let w1 := (Hotel.create_hotel i n l r w).2 in
  (Hotel.create_hotel j n' l' r' w1).1 = Ret false ∧
  (Hotel.display_hotel j w1).1 = (Hotel.display_hotel i w1).1 ∧
  ∃ h, (Hotel.display_hotel j w1).1 = Ret (inl h).
Proof.
  intros Hij Hf. cbn zeta.
  assert (is_Some (hotels (Hotel.create_hotel i n l r w).2 !! str i)) as [h Hh].
  { rewrite create_hotel_run. cbn zeta. rewrite contains_lookup.
    destruct (hotels w !! str i) as [h|] eqn:Hi; simpl.
    - autorewrite with files. eauto.
    - rewrite saved_hotels_ok by (by autorewrite with files).
      unfold hotels. simpl. rewrite lookup_insert_eq. eauto. }
  rewrite create_hotel_run, !display_hotel_run. cbn zeta. simpl.
  rewrite contains_lookup, <- Hij, Hh. eauto.
Qed.

Lemma ids_meet_through_str_witness :
  let w1 := (Hotel.create_hotel (PInt 1) (PStr "Plaza") (PStr "NYC") 100 empty_world).2 in
  (Hotel.create_hotel (PStr "1") (PStr "Plaza 2") (PStr "LA") 50 w1).1 = Ret false.
Proof.
  cbn zeta.
  apply (ids_meet_through_str (PInt 1) (PStr "1") (PStr "Plaza") (PStr "NYC")
           (PStr "Plaza 2") (PStr "LA") 100 50 empty_world); reflexivity.
Defined.

(** ** Corrupt snapshots and failed writes *)

(** X11.  A snapshot that cannot be used is replaced, not repaired: when the
    hotel file is missing, garbled or unreadable, [create_hotel] with a
    successful write returns [True] and leaves a file that holds the new hotel
    and nothing else.  For a garbled file the only trace is the message
    printed by the load. *)
Theorem corrupt_snapshot_replaced (i n l : pyval) (r : Z) (w : world) :
  (∀ d, hotels_json w ≠ Doc d) → faults w = [] →
  let res := Hotel.create_hotel i n l r w in
  res.1 = Ret true ∧
  hotels_json res.2 = Doc {[str i := mk_hotel n l r r]} ∧
  (hotels_json w = Invalid →
   stdout res.2 = (stdout w ++ ["Invalid JSON in hotels.json. Returning empty."])%list).
Proof.
  intros Hbad Hf. cbn zeta. rewrite create_hotel_run. cbn zeta.
  assert (hotels w = ∅) as He.
  { unfold hotels. destruct (hotels_json w) as [| | |d]; try done. by destruct (Hbad d). }
  rewrite contains_lookup, He, lookup_empty. simpl.
  rewrite saved_hotels_ok by (by autorewrite with files). simpl.
  split; [done|]. split; [done|].
  intros Hi. rewrite loaded_run. simpl. by rewrite Hi.
Qed.

Lemma corrupt_snapshot_replaced_witness :
  let res := Hotel.create_hotel (PStr "H2") (PStr "Ritz") (PStr "Paris") 5 garbled in
  hotels_json res.2 = Doc {[ "H2" := mk_hotel (PStr "Ritz") (PStr "Paris") 5 5 ]} ∧
  stdout res.2 = ["Invalid JSON in hotels.json. Returning empty."].
Proof.
  cbn zeta.
  destruct (corrupt_snapshot_replaced (PStr "H2") (PStr "Ritz") (PStr "Paris") 5 garbled)
    as (_ & Hd & Hs); [by intros d|reflexivity|].
  split; [exact Hd|]. apply Hs. reflexivity.
Defined.

(** X12.  A failed write does not change what an operation returns:
    [create_hotel] under a fresh id returns [True] whatever happens to its
    write.  If [open] fails the hotel file is untouched, so the hotel is not
    stored, and the failure is the last message printed; if the write fails
    after truncation the whole collection is lost. *)
Theorem failed_write_reports_success (i n l : pyval) (r : Z) (w : world) :
  hotels w !! str i = None →
  let res := Hotel.create_hotel i n l r w in
  res.1 = Ret true ∧
  (∀ e rest, faults w = OpenFails e :: rest →
     hotels_json res.2 = hotels_json w ∧
     last (stdout res.2) = Some ("Unexpected error saving to hotels.json: " +:+ e)) ∧
  (∀ e rest, faults w = WriteFails e :: rest →
     hotels_json res.2 = Invalid ∧ hotels res.2 = ∅).
Proof.
  intros Hfresh. cbn zeta. rewrite create_hotel_run. cbn zeta.
  rewrite contains_lookup, Hfresh. simpl. split; [done|].
  split; intros e rest Hf; rewrite saved_run; autorewrite with files; rewrite Hf; simpl.
  - autorewrite with files. split; [done|]. apply last_snoc.
  - done.
Qed.

Lemma failed_write_reports_success_witness :
  let res := Hotel.create_hotel (PStr "H1") (PStr "Plaza") (PStr "NYC") 1 read_only in
  res.1 = Ret true ∧ hotels_json res.2 = Missing.
Proof.
  cbn zeta.
  destruct (failed_write_reports_success (PStr "H1") (PStr "Plaza") (PStr "NYC") 1 read_only)
    as (Hr & Hopen & _); [reflexivity|].
  split; [exact Hr|].
  destruct (Hopen "Permission denied" []) as [-> _]; reflexivity.
Defined.

(** X13.  The two writes of [create_reservation] are independent.  When the
    hotel write succeeds and the ledger write fails at [open], the operation
    still returns [True], the room is taken and no reservation is recorded;
    when the hotel write fails at [open] and the ledger write succeeds, the
    reservation is recorded and no room is taken.  Either way a store whose
    counters agreed with the ledger no longer agrees. *)
Theorem create_reservation_half_written (rid cid hid : pyval) (w : world) (h : hotel) :
  reservations w !! str rid = None → hotels w !! str hid = Some h →
  0 < available_rooms h →
  let r := Reservation.create_reservation rid cid hid w in
  r.1 = Ret true ∧
  (∀ e rest, faults w = NoFault :: OpenFails e :: rest →
     hotels r.2 = <[str hid := Hotel.set_available_rooms (available_rooms h - 1) h]> (hotels w) ∧
     reservations_json r.2 = reservations_json w ∧
     (rooms_accounted (abs w) → ¬ rooms_accounted (abs r.2))) ∧
  (∀ e rest, faults w = OpenFails e :: NoFault :: rest →
     hotels_json r.2 = hotels_json w ∧
     reservations r.2 =
       <[str rid := mk_reservation (str cid) (str hid)]> (reservations w) ∧
     (rooms_accounted (abs w) → ¬ rooms_accounted (abs r.2))).
Proof.
  intros Hr Hh Hpos. cbn zeta. rewrite create_reservation_run. cbn zeta.
  rewrite contains_lookup, Hr, Hh. replace (0 <? available_rooms h) with true by lia.
  simpl. split; [done|]. split; intros e rest Hf.
  - rewrite (saved_run Reservation.FILE_NAME), (saved_run Hotel.FILE_NAME).
    autorewrite with files. rewrite Hf. simpl. autorewrite with files.
    split; [done|]. split; [done|].
    intros Ha Ha'. unfold rooms_accounted in Ha, Ha'. simpl in Ha, Ha'.
    specialize (Ha _ _ Hh). simpl in Ha.
    unfold hotels at 1 in Ha'. unfold reservations at 1 in Ha'. simpl in Ha'.
    autorewrite with files in Ha'. fold (reservations w) in Ha'.
    specialize (Ha' (str hid) _ (lookup_insert_eq _ _ _)). simpl in Ha'. lia.
  - rewrite (saved_run Reservation.FILE_NAME), (saved_run Hotel.FILE_NAME).
    autorewrite with files. rewrite Hf. simpl. autorewrite with files.
    split; [done|]. split; [done|].
    intros Ha Ha'. unfold rooms_accounted in Ha, Ha'. simpl in Ha, Ha'.
    specialize (Ha _ _ Hh). simpl in Ha.
    unfold hotels at 1 in Ha'. unfold reservations at 1 in Ha'. simpl in Ha'.
    autorewrite with files in Ha'. fold (hotels w) in Ha'.
    specialize (Ha' _ _ Hh). simpl in Ha'.
    rewrite booked_insert_fresh in Ha' by done. simpl in Ha'.
    rewrite decide_True in Ha' by done. lia.
Qed.

Lemma create_reservation_half_written_witness :
  let r := Reservation.create_reservation (PStr "R1") (PStr "C1") (PStr "H1") plaza_half in
  r.1 = Ret true ∧ available_rooms <$> hotels r.2 !! "H1" = Some 0 ∧ reservations r.2 = ∅.
Proof.
  cbn zeta.
  destruct (create_reservation_half_written (PStr "R1") (PStr "C1") (PStr "H1") plaza_half
              (mk_hotel (PStr "Plaza") (PStr "NYC") 1 1))
    as (Hr & Hhalf & _); [reflexivity|reflexivity|simpl; lia|].
  split; [exact Hr|].
  destruct (Hhalf "Permission denied" []) as (Hh & Hl & _); [reflexivity|].
  split; [by rewrite Hh|]. unfold reservations. by rewrite Hl.
Defined.

(** X14.  The two writes of [cancel_reservation] are independent too.  When
    the hotel write succeeds and the ledger write fails at [open], the
    operation returns [True] and the room is freed, but the reservation stays
    in the ledger; cancelling it again then succeeds once more and frees a
    second room for the one reservation. *)
Theorem cancel_half_written (rid : pyval) (w : world) (x : reservation) (h : hotel)
    (e : string) :
  reservations w !! str rid = Some x → hotels w !! hotel_id x = Some h →
  faults w = [NoFault; OpenFails e] →
  let r1 := Reservation.cancel_reservation rid w in
  let r2 := Reservation.cancel_reservation rid r1.2 in
  r1.1 = Ret true ∧
  reservations_json r1.2 = reservations_json w ∧
  available_rooms <$> hotels r1.2 !! hotel_id x = Some (available_rooms h + 1) ∧
  r2.1 = Ret true ∧
  available_rooms <$> hotels r2.2 !! hotel_id x = Some (available_rooms h + 2) ∧
  reservations r2.2 !! str rid = None.
Proof.
  intros Hr Hh Hf. cbn zeta.
  assert (∃ w1, (Reservation.cancel_reservation rid w).2 = w1 ∧
                (Reservation.cancel_reservation rid w).1 = Ret true ∧
                faults w1 = [] ∧ reservations_json w1 = reservations_json w ∧
                hotels w1 =
                  <[hotel_id x := Hotel.set_available_rooms (available_rooms h + 1) h]>
                    (hotels w)) as (w1 & Hw1 & Hr1 & Hf1 & Hl1 & Hh1).
  { eexists. split; [reflexivity|]. rewrite cancel_reservation_run. cbn zeta.
    rewrite Hr. simpl. rewrite Hh. split; [done|].
    rewrite (saved_run Reservation.FILE_NAME), (saved_run Hotel.FILE_NAME).
    autorewrite with files. rewrite Hf. simpl. by autorewrite with files. }
  rewrite Hw1, Hr1. split; [done|]. split; [done|].
  split; [by rewrite Hh1, lookup_insert_eq|].
  assert (reservations w1 !! str rid = Some x) as Hr'.
  { unfold reservations. by rewrite Hl1. }
  rewrite cancel_reservation_run. cbn zeta. rewrite Hr'. simpl.
  rewrite Hh1, lookup_insert_eq.
  rewrite saved_reservations_ok; rewrite saved_hotels_ok; autorewrite with files; try done.
  split; [done|]. unfold hotels at 1. simpl. split.
  - rewrite lookup_insert_eq. simpl. f_equal. lia.
  - unfold reservations at 1. simpl. apply lookup_delete_eq.
Qed.

Lemma cancel_half_written_witness :
  let r1 := Reservation.cancel_reservation (PStr "R1") plaza_full_half in
  let r2 := Reservation.cancel_reservation (PStr "R1") r1.2 in
  r2.1 = Ret true ∧ hotels r2.2 !! "H1" = Some (mk_hotel (PStr "Plaza") (PStr "NYC") 1 2).
Proof.
  cbn zeta.
  destruct (cancel_half_written (PStr "R1") plaza_full_half (mk_reservation "C1" "H1")
              (mk_hotel (PStr "Plaza") (PStr "NYC") 1 0) "Permission denied")
    as (_ & _ & _ & Hr2 & _ & _); [reflexivity|reflexivity|reflexivity|].
  split; [exact Hr2|reflexivity].
Defined.

(** X15.  Cancelling a reservation twice, the writes succeeding: the first
    call returns [True] and frees the id, the second returns [False] and
    changes none of the three files, so a room is not freed twice. *)
Theorem cancel_twice (rid : pyval) (w : world) :
  faults w = [] → is_Some (reservations w !! str rid) →
  let r1 := Reservation.cancel_reservation rid w in
  let r2 := Reservation.cancel_reservation rid r1.2 in
  r1.1 = Ret true ∧ reservations r1.2 !! str rid = None ∧
  r2.1 = Ret false ∧
  hotels_json r2.2 = hotels_json r1.2 ∧ customers_json r2.2 = customers_json r1.2 ∧
  reservations_json r2.2 = reservations_json r1.2.
Proof.
  intros Hf [x Hx]. cbn zeta.
  assert ((Reservation.cancel_reservation rid w).1 = Ret true ∧
          reservations (Reservation.cancel_reservation rid w).2 !! str rid = None)
    as [Hr1 Hgone].
  { rewrite cancel_reservation_run. cbn zeta. rewrite Hx. simpl. split; [done|].
    rewrite saved_reservations_ok.
    - unfold reservations at 1. simpl. apply lookup_delete_eq.
    - destruct (hotels w !! hotel_id x);
        [rewrite saved_hotels_ok|]; by autorewrite with files. }
  split; [done|]. split; [done|].
  rewrite (cancel_reservation_run rid (Reservation.cancel_reservation rid w).2).
  cbn zeta. rewrite Hgone. simpl. by autorewrite with files.
Qed.

Lemma cancel_twice_witness :
  let r1 := Reservation.cancel_reservation (PStr "R1") plaza_full in
  let r2 := Reservation.cancel_reservation (PStr "R1") r1.2 in
  r1.1 = Ret true ∧ r2.1 = Ret false ∧ hotels_json r2.2 = hotels_json r1.2.
Proof.
  cbn zeta.
  destruct (cancel_twice (PStr "R1") plaza_full) as (H1 & _ & H2 & H3 & _);
    [reflexivity|by exists (mk_reservation "C1" "H1")|].
  split; [exact H1|]. split; [exact H2|exact H3].
Defined.

(** ** Saving, then loading *)

Lemma file_names_are_lenses :
  lens Hotel.FILE_NAME ∧ lens Customer.FILE_NAME ∧ lens Reservation.FILE_NAME.
Proof. by repeat split. Qed.

(** X17.  What [load_data] returns after [save_data] on the same file.  If
    the write succeeded it is the saved collection, and nothing is printed by
    the load; if [open] failed it is the collection the file held before; if
    the write failed after truncation it is the empty collection. *)
Theorem save_then_load {A} (f : slot A) (d : gmap string A) (w : world) :
  lens f →
  let w1 := (DataManager.save_data f d w).2 in
  (faults w = [] ∨ (∃ rest, faults w = NoFault :: rest) →
   DataManager.load_data f w1 = (Ret d, w1)) ∧
  (∀ e rest, faults w = OpenFails e :: rest →
     (DataManager.load_data f w1).1 = Ret (view (content f w))) ∧
  (∀ e rest, faults w = WriteFails e :: rest →
     (DataManager.load_data f w1).1 = Ret ∅).
Proof.
  intros (Hget & Hfaults & Hlog). cbn zeta.
  rewrite save_data_run, load_data_run. simpl. split; [|split].
  - intros [Hf|[rest Hf]]; rewrite Hf; by rewrite Hget.
  - intros e rest Hf. by rewrite Hf, Hlog, Hfaults.
  - intros e rest Hf. by rewrite Hf, Hlog, Hget.
Qed.

Lemma save_then_load_witness :
  let d : gmap string hotel := {[ "H1" := mk_hotel (PStr "Plaza") (PStr "NYC") 1 1 ]} in
  (DataManager.load_data Hotel.FILE_NAME
     (DataManager.save_data Hotel.FILE_NAME d garbled).2).1 = Ret d ∧
  (DataManager.load_data Hotel.FILE_NAME
     (DataManager.save_data Hotel.FILE_NAME d disk_full).2).1 = Ret ∅.
Proof.
  cbn zeta. split.
  - destruct (save_then_load Hotel.FILE_NAME
                {[ "H1" := mk_hotel (PStr "Plaza") (PStr "NYC") 1 1 ]} garbled)
      as (Hok & _); [apply file_names_are_lenses|].
    rewrite Hok; [reflexivity|]. left. reflexivity.
  - destruct (save_then_load Hotel.FILE_NAME
                {[ "H1" := mk_hotel (PStr "Plaza") (PStr "NYC") 1 1 ]} disk_full)
      as (_ & _ & Hko); [apply file_names_are_lenses|].
    apply (Hko "No space left on device" []). reflexivity.
Defined.

(** ** What a single operation can do to a stored record *)

(** Whatever happens to its writes, an operation leaves the hotel collection
    as it was, or empties it (a write failed after truncation), or has the
    effect of [astep] on it. *)
Lemma step_hotels_cases (o : op) (w : world) :
  hotels (step o w) = hotels w ∨ hotels (step o w) = ∅ ∨
  hotels (step o w) = a_hotels (astep o (abs w)).
Proof.
  assert (∀ d x, hotels x = hotels w →
            hotels (saved Hotel.FILE_NAME d x) = hotels w ∨
            hotels (saved Hotel.FILE_NAME d x) = ∅ ∨
            hotels (saved Hotel.FILE_NAME d x) = d) as Hsave.
  { intros d x Hx. unfold hotels in *.
    destruct (saved_hotels_files d x) as [[->| [->| ->]] _]; simpl; auto. }
  assert (∀ d x, hotels (saved Customer.FILE_NAME d x) = hotels x) as Hc.
  { intros d x. unfold hotels. by destruct (saved_customers_files d x) as (-> & _). }
  assert (∀ d x, hotels (saved Reservation.FILE_NAME d x) = hotels x) as Hr.
  { intros d x. unfold hotels. by destruct (saved_reservations_files d x) as (-> & _). }
  unfold step.
  destruct o as [i n l r|i|i n l|i n e|i|i n e|rid cid hid|rid]; simpl.
  - rewrite create_hotel_run. cbn zeta. destruct (contains _ _); simpl.
    + left. by autorewrite with files.
    + apply Hsave. by autorewrite with files.
  - rewrite delete_hotel_run. cbn zeta. destruct (contains _ _); simpl.
    + apply Hsave. by autorewrite with files.
    + left. by autorewrite with files.
  - rewrite modify_hotel_run. cbn zeta. destruct (contains _ _); simpl.
    + apply Hsave. by autorewrite with files.
    + left. by autorewrite with files.
  - left. rewrite create_customer_run. cbn zeta. destruct (contains _ _); simpl;
      rewrite ?Hc; by autorewrite with files.
  - left. rewrite delete_customer_run. cbn zeta. destruct (contains _ _); simpl;
      rewrite ?Hc; by autorewrite with files.
  - left. rewrite modify_customer_run. cbn zeta. destruct (contains _ _); simpl;
      rewrite ?Hc; by autorewrite with files.
  - rewrite create_reservation_run. cbn zeta. destruct (contains _ _); simpl.
    { left. by autorewrite with files. }
    destruct (hotels w !! str hid) as [h|]; simpl; [|left; by autorewrite with files].
    destruct (0 <? available_rooms h); simpl; [|left; by autorewrite with files].
    rewrite Hr. apply Hsave. by autorewrite with files.
  - rewrite cancel_reservation_run. cbn zeta.
    destruct (reservations w !! str rid) as [x|]; simpl;
      [|left; by autorewrite with files].
    rewrite Hr. destruct (hotels w !! hotel_id x) as [h|].
    + apply Hsave. by autorewrite with files.
    + left. by autorewrite with files.
Qed.

(** The same for the ledger. *)
Lemma step_reservations_cases (o : op) (w : world) :
  reservations (step o w) = reservations w ∨ reservations (step o w) = ∅ ∨
  reservations (step o w) = a_reservations (astep o (abs w)).
Proof.
  assert (∀ d x, reservations x = reservations w →
            reservations (saved Reservation.FILE_NAME d x) = reservations w ∨
            reservations (saved Reservation.FILE_NAME d x) = ∅ ∨
            reservations (saved Reservation.FILE_NAME d x) = d) as Hsave.
  { intros d x Hx. unfold reservations in *.
    destruct (saved_reservations_files d x) as (_ & _ & [->| [->| ->]]); simpl; auto. }
  assert (∀ d x, reservations (saved Customer.FILE_NAME d x) = reservations x) as Hc.
  { intros d x. unfold reservations.
    by destruct (saved_customers_files d x) as (_ & _ & ->). }
  assert (∀ d x, reservations (saved Hotel.FILE_NAME d x) = reservations x) as Hh.
  { intros d x. unfold reservations.
    by destruct (saved_hotels_files d x) as (_ & _ & ->). }
  unfold step.
  destruct o as [i n l r|i|i n l|i n e|i|i n e|rid cid hid|rid]; simpl.
  - left. rewrite create_hotel_run. cbn zeta. destruct (contains _ _); simpl;
      rewrite ?Hh; by autorewrite with files.
  - left. rewrite delete_hotel_run. cbn zeta. destruct (contains _ _); simpl;
      rewrite ?Hh; by autorewrite with files.
  - left. rewrite modify_hotel_run. cbn zeta. destruct (contains _ _); simpl;
      rewrite ?Hh; by autorewrite with files.
  - left. rewrite create_customer_run. cbn zeta. destruct (contains _ _); simpl;
      rewrite ?Hc; by autorewrite with files.
  - left. rewrite delete_customer_run. cbn zeta. destruct (contains _ _); simpl;
      rewrite ?Hc; by autorewrite with files.
  - left. rewrite modify_customer_run. cbn zeta. destruct (contains _ _); simpl;
      rewrite ?Hc; by autorewrite with files.
  - rewrite create_reservation_run. cbn zeta. destruct (contains _ _); simpl.
    { left. by autorewrite with files. }
    destruct (hotels w !! str hid) as [h|]; simpl; [|left; by autorewrite with files].
    destruct (0 <? available_rooms h); simpl; [|left; by autorewrite with files].
    apply Hsave. rewrite Hh. by autorewrite with files.
  - rewrite cancel_reservation_run. cbn zeta.
    destruct (reservations w !! str rid) as [x|]; simpl;
      [|left; by autorewrite with files].
    apply Hsave. destruct (hotels w !! hotel_id x) as [h|];
      rewrite ?Hh; by autorewrite with files.
Qed.

(** X18.  One operation, whatever happens to its writes, and a hotel that
    is in the collection before and after it: [total_rooms] is unchanged;
    [available_rooms] moves by at most 1, and only if the operation creates or
    cancels a reservation; the name and the location are unchanged unless the
    operation is [modify_hotel]. *)
Theorem hotel_fields_stable (o : op) (w : world) (k : string) (h h' : hotel) :
  hotels w !! k = Some h → hotels (step o w) !! k = Some h' →
  total_rooms h' = total_rooms h ∧
  available_rooms h - 1 ≤ available_rooms h' ≤ available_rooms h + 1 ∧
  match o with
  | CreateReservation _ _ _ | CancelReservation _ => True
  | _ => available_rooms h' = available_rooms h
  end ∧
  match o with
  | ModifyHotel _ _ _ => True
  | _ => name h' = name h ∧ location h' = location h
  end.
Proof.
  intros Hk Hk'.
  assert (h' = h → total_rooms h' = total_rooms h ∧
            available_rooms h - 1 ≤ available_rooms h' ≤ available_rooms h + 1 ∧
            match o with
            | CreateReservation _ _ _ | CancelReservation _ => True
            | _ => available_rooms h' = available_rooms h
            end ∧
            match o with
            | ModifyHotel _ _ _ => True
            | _ => name h' = name h ∧ location h' = location h
            end) as Hsame.
  { intros ->. split; [done|]. split; [lia|]. by destruct o. }
  destruct (step_hotels_cases o w) as [He|[He|He]]; rewrite He in Hk'.
  - apply Hsame. congruence.
  - by rewrite lookup_empty in Hk'.
  - unfold abs in Hk'.
    destruct o as [i n l r|i|i n l|i n e|i|i n e|rid cid hid|rid]; simpl in Hk'.
    + apply Hsame. rewrite contains_lookup in Hk'.
      destruct (hotels w !! str i) eqn:Hi; simpl in Hk'; [congruence|].
      rewrite lookup_insert_ne in Hk' by congruence. congruence.
    + apply Hsame. apply lookup_delete_Some in Hk' as [_ Hk']. congruence.
    + rewrite modified_hotel_lookup in Hk'. case_decide; [|apply Hsame; congruence].
      rewrite Hk in Hk'. simpl in Hk'. injection Hk' as <-. clear Hsame.
      destruct (truthy n), (truthy l); simpl; repeat split; lia.
    + apply Hsame. destruct (contains _ _); simpl in Hk'; congruence.
    + apply Hsame. congruence.
    + apply Hsame. congruence.
    + rewrite contains_lookup in Hk'.
      destruct (reservations w !! str rid); simpl in Hk'; [apply Hsame; congruence|].
      destruct (hotels w !! str hid) as [h0|] eqn:Hh0; simpl in Hk';
        [|apply Hsame; congruence].
      destruct (0 <? available_rooms h0); simpl in Hk'; [|apply Hsame; congruence].
      rewrite lookup_insert in Hk'. case_decide; [|apply Hsame; congruence].
      subst k. injection Hk' as <-. rewrite Hk in Hh0. injection Hh0 as <-.
      simpl. repeat split; lia.
    + destruct (reservations w !! str rid) as [x|]; simpl in Hk';
        [|apply Hsame; congruence].
      destruct (hotels w !! hotel_id x) as [h0|] eqn:Hh0; simpl in Hk';
        [|apply Hsame; congruence].
      rewrite lookup_insert in Hk'. case_decide as Hx; [|apply Hsame; congruence].
      rewrite Hx, Hk in Hh0. injection Hh0 as <-. injection Hk' as <-.
      simpl. repeat split; lia.
Qed.

Lemma hotel_fields_stable_witness :
  let h := mk_hotel (PStr "Plaza") (PStr "NYC") 1 0 in
  let h' := mk_hotel (PStr "Plaza") (PStr "NYC") 1 1 in
  hotels (step (CancelReservation (PStr "R1")) plaza_full) !! "H1" = Some h' ∧
  total_rooms h' = total_rooms h ∧
  available_rooms h - 1 ≤ available_rooms h' ≤ available_rooms h + 1.
Proof.
  cbn zeta. split; [reflexivity|].
  destruct (hotel_fields_stable (CancelReservation (PStr "R1")) plaza_full "H1"
              (mk_hotel (PStr "Plaza") (PStr "NYC") 1 0)
              (mk_hotel (PStr "Plaza") (PStr "NYC") 1 1)) as (Ht & Ha & _);
    [reflexivity|reflexivity|].
  split; [exact Ht|exact Ha].
Defined.

(** X19.  A reservation of the ledger is never rewritten: whatever the
    operation and whatever happens to its writes, a reservation id found
    before and after it holds the same customer and hotel ids.  When the
    writes succeed, the only operation that removes it is the cancellation of
    that very id. *)
Theorem ledger_entries_fixed (o : op) (w : world) (k : string) (x : reservation) :
  reservations w !! k = Some x →
  (∀ x', reservations (step o w) !! k = Some x' → x' = x) ∧
  (faults w = [] → (∀ rid, o = CancelReservation rid → str rid ≠ k) →
   reservations (step o w) !! k = Some x).
Proof.
  intros Hk.
  assert (∀ x', a_reservations (astep o (abs w)) !! k = Some x' → x' = x) as Hstep.
  { intros x'. unfold abs.
    destruct o as [i n l r|i|i n l|i n e|i|i n e|rid cid hid|rid]; simpl;
      try congruence.
    - destruct (contains _ _); simpl; congruence.
    - destruct (contains _ _); simpl; congruence.
    - rewrite contains_lookup.
      destruct (reservations w !! str rid) eqn:Hr; simpl; [congruence|].
      destruct (hotels w !! str hid) as [h|]; simpl; [|congruence].
      destruct (0 <? available_rooms h); simpl; [|congruence].
      rewrite lookup_insert_ne by congruence. congruence.
    - destruct (reservations w !! str rid); simpl; [|congruence].
      intros [_ ?]%lookup_delete_Some. congruence. }
  split.
  - intros x' Hk'. destruct (step_reservations_cases o w) as [He|[He|He]];
      rewrite He in Hk'; [congruence|by rewrite lookup_empty in Hk'|by apply Hstep].
  - intros Hf Hcancel. destruct (step_abs o w Hf) as [Habs _].
    change (reservations (step o w)) with (a_reservations (abs (step o w))).
    rewrite Habs. unfold abs.
    destruct o as [i n l r|i|i n l|i n e|i|i n e|rid cid hid|rid]; simpl; try done.
    + by destruct (contains _ _).
    + by destruct (contains _ _).
    + rewrite contains_lookup.
      destruct (reservations w !! str rid) eqn:Hr; simpl; [done|].
      destruct (hotels w !! str hid) as [h|]; simpl; [|done].
      destruct (0 <? available_rooms h); simpl; [|done].
      rewrite lookup_insert_ne by congruence. done.
    + destruct (reservations w !! str rid); simpl; [|done].
      rewrite lookup_delete_ne; [done|]. by apply Hcancel.
Qed.

Lemma ledger_entries_fixed_witness :
  reservations (step (DeleteHotel (PStr "H1")) plaza_full) !! "R1"
  = Some (mk_reservation "C1" "H1").
Proof.
  destruct (ledger_entries_fixed (DeleteHotel (PStr "H1")) plaza_full "R1"
              (mk_reservation "C1" "H1")) as [_ Hstay]; [reflexivity|].
  apply Hstay; [reflexivity|]. intros rid Hrid. discriminate Hrid.
Defined.

(** ** The counter over a sequence of operations *)

(** X20.  The counter never goes below zero, and for this no condition on
    deletions is needed: after any sequence of operations whose writes
    succeed and that creates hotels only with a non-negative number of rooms,
    started from a store where no [available_rooms] is negative, no
    [available_rooms] is negative. *)
Theorem available_never_negative (os : list op) (w : world) :
  faults w = [] →
  map_Forall (fun _ h => 0 ≤ available_rooms h) (hotels w) →
  Forall nonneg_rooms os →
  map_Forall (fun _ h => 0 ≤ available_rooms h) (hotels (run os w)).
Proof.
  intros Hf Hn Hos. revert w Hf Hn.
  induction Hos as [|o os Ho Hos IH]; intros w Hf Hn; [done|].
  rewrite run_cons. apply IH.
  - by destruct (step_abs o w Hf).
  - by apply step_nonneg.
Qed.

Lemma available_never_negative_witness :
  map_Forall (fun _ h => 0 ≤ available_rooms h) (hotels (run drift empty_world)).
Proof.
  apply available_never_negative.
  - reflexivity.
  - intros k h H. vm_compute in H. discriminate.
  - unfold drift. repeat constructor; simpl; lia.
Defined.

(** X21.  Booking several rooms in a row.  Against a hotel with [a >= 0]
    rooms available, [n] creations under fresh, pairwise distinct
    reservation ids, the writes succeeding, leave [max 0 (a - n)] rooms
    available and add [min a n] reservations to those that reference the
    hotel: the first [a] are accepted and the others refused. *)
Theorem reserve_all_spec (hid : pyval) (rs : list (pyval * pyval)) (w : world) (h : hotel) :
  faults w = [] → hotels w !! str hid = Some h → 0 ≤ available_rooms h →
  NoDup ((fun rc => str rc.1) <$> rs) →
  Forall (fun rc => reservations w !! str rc.1 = None) rs →
  let w' := run (reserve_all hid rs) w in
  available_rooms <$> hotels w' !! str hid
    = Some (Z.max 0 (available_rooms h - Z.of_nat (length rs))) ∧
  booked (str hid) (reservations w')
    = booked (str hid) (reservations w) + Z.min (available_rooms h) (Z.of_nat (length rs)).
Proof.
  cbn zeta. revert w h.
  induction rs as [|[rid cid] rs IH]; intros w h Hf Hh Hpos Hnd Hfresh.
  { simpl. rewrite Hh. simpl. split; [f_equal; lia|lia]. }
  apply NoDup_cons in Hnd as [Hnotin Hnd]. apply Forall_cons in Hfresh as [Hrid Hfresh].
  simpl in Hnotin, Hrid. simpl reserve_all. rewrite run_cons.
  destruct (step_abs (CreateReservation rid cid hid) w Hf) as [Habs Hf'].
  unfold abs in Habs at 2. simpl in Habs. rewrite contains_lookup, Hrid, Hh in Habs.
  set (w1 := step (CreateReservation rid cid hid) w) in *.
  destruct (0 <? available_rooms h) eqn:Ha; injection Habs as Hhs _ Hrs.
  - assert (Forall (λ rc, reservations w1 !! str rc.1 = None) rs) as Hfresh'.
    { apply Forall_forall. intros rc Hrc. rewrite Hrs, lookup_insert_ne.
      - by apply (proj1 (Forall_forall _ _) Hfresh).
      - intros Heq. apply Hnotin. apply list_elem_of_fmap. exists rc. by split. }
    destruct (IH w1 (Hotel.set_available_rooms (available_rooms h - 1) h))
      as [IHa IHb]; [done|by rewrite Hhs, lookup_insert_eq|simpl; lia|done|done|].
    simpl in IHa, IHb. unfold reserve_all in IHa, IHb |- *.
    rewrite IHa, IHb, Hrs, booked_insert_fresh by done. simpl.
    rewrite decide_True by done. split; [f_equal; lia|lia].
  - assert (Forall (λ rc, reservations w1 !! str rc.1 = None) rs) as Hfresh'.
    { by rewrite Hrs. }
    destruct (IH w1 h) as [IHa IHb]; [done|by rewrite Hhs|done|done|done|].
    unfold reserve_all in IHa, IHb |- *.
    rewrite IHa, IHb, Hrs. simpl length. split; [f_equal; lia|lia].
Qed.

Lemma reserve_all_spec_witness :
  let w' := run (reserve_all (PStr "H1")
                   [(PStr "R1", PStr "C1"); (PStr "R2", PStr "C1")]) plaza in
  available_rooms <$> hotels w' !! "H1" = Some 0 ∧ booked "H1" (reservations w') = 1.
Proof.
  cbn zeta.
  destruct (reserve_all_spec (PStr "H1") [(PStr "R1", PStr "C1"); (PStr "R2", PStr "C1")]
              plaza (mk_hotel (PStr "Plaza") (PStr "NYC") 1 1)) as [Ha Hb].
  - reflexivity.
  - reflexivity.
  - simpl. lia.
  - simpl. apply NoDup_cons. split; [|apply NoDup_singleton].
    intros Hin%list_elem_of_singleton. discriminate Hin.
  - repeat constructor.
  - split; [exact Ha|exact Hb].
Defined.

(** ** Failures and deletions, once more *)

(** X22.  [delete_customer] succeeds exactly when the id is a key of the
    customer collection, and never looks at the ledger: the hotel and
    reservation files are left as they were.  On an absent id it writes and
    prints nothing of its own; a present one is removed when the write
    succeeds, and the reservations made for that customer stay in the
    ledger. *)
Theorem delete_customer_unconditional (i : pyval) (w : world) :
  let r := Customer.delete_customer i w in
  (r.1 = Ret true ↔ is_Some (customers w !! str i)) ∧
  (r.1 = Ret false ↔ customers w !! str i = None) ∧
  hotels_json r.2 = hotels_json w ∧
  reservations_json r.2 = reservations_json w ∧
  (customers w !! str i = None → r.2 = loaded Customer.FILE_NAME w) ∧
  (is_Some (customers w !! str i) → faults w = [] →
   customers r.2 = delete (str i) (customers w) ∧
   ∀ k x, reservations w !! k = Some x → customer_id x = str i →
          reservations r.2 !! k = Some x ∧ customers r.2 !! customer_id x = None).
Proof.
  cbn zeta. rewrite delete_customer_run. cbn zeta. rewrite contains_lookup.
  destruct (customers w !! str i) as [c|] eqn:Hc; simpl.
  - destruct (saved_customers_files (delete (str i) (customers w))
                (loaded Customer.FILE_NAME w)) as (Hh & _ & Hr).
    rewrite Hh, Hr. autorewrite with files.
    split; [split; eauto|]. split; [split; done|].
    split; [done|]. split; [done|]. split; [done|]. intros _ Hf.
    rewrite saved_customers_ok by (by autorewrite with files).
    split; [done|]. intros k x Hk Hx.
    unfold reservations, customers at 1. simpl. autorewrite with files.
    split; [done|]. rewrite Hx. apply lookup_delete_eq.
  - autorewrite with files.
    split; [split; [done|by intros [? ?]]|]. split; [done|].
    split; [done|]. split; [done|]. split; [done|]. by intros [? ?].
Qed.

Lemma delete_customer_unconditional_witness :
  let r := Customer.delete_customer (PStr "C1") plaza_full in
  r.1 = Ret true ∧
  reservations r.2 !! "R1" = Some (mk_reservation "C1" "H1") ∧ customers r.2 !! "C1" = None.
Proof.
  cbn zeta.
  pose proof (delete_customer_unconditional (PStr "C1") plaza_full)
    as (Hok & _ & _ & _ & _ & Hdel).
  cbn zeta in *.
  assert (is_Some (customers plaza_full !! str (PStr "C1"))) as Hex.
  { exists (mk_customer (PStr "John") (PStr "j@x.com")). reflexivity. }
  split; [by apply Hok|].
  destruct (Hdel Hex eq_refl) as [_ Href].
  apply (Href "R1" (mk_reservation "C1" "H1")); reflexivity.
Defined.

(** X23.  An operation that returns [False] has written nothing: the three
    snapshot files are as they were and no pending write fault was
    consumed.  This holds for the eight mutating operations, in every state
    of the files. *)
Theorem failed_operation_changes_nothing (o : op) (w : world) :
  (exec o w).1 = Ret false →
  hotels_json (step o w) = hotels_json w ∧
  customers_json (step o w) = customers_json w ∧
  reservations_json (step o w) = reservations_json w ∧
  faults (step o w) = faults w.
Proof.
  unfold step.
  destruct o as [i n l r|i|i n l|i n e|i|i n e|rid cid hid|rid]; simpl.
  - rewrite create_hotel_run. cbn zeta. destruct (contains _ _); simpl; [|done].
    intros _. by autorewrite with files.
  - rewrite delete_hotel_run. cbn zeta. destruct (contains _ _); simpl; [done|].
    intros _. by autorewrite with files.
  - rewrite modify_hotel_run. cbn zeta. destruct (contains _ _); simpl; [done|].
    intros _. by autorewrite with files.
  - rewrite create_customer_run. cbn zeta. destruct (contains _ _); simpl; [|done].
    intros _. by autorewrite with files.
  - rewrite delete_customer_run. cbn zeta. destruct (contains _ _); simpl; [done|].
    intros _. by autorewrite with files.
  - rewrite modify_customer_run. cbn zeta. destruct (contains _ _); simpl; [done|].
    intros _. by autorewrite with files.
  - rewrite create_reservation_run. cbn zeta. destruct (contains _ _); simpl.
    { intros _. by autorewrite with files. }
    destruct (hotels w !! str hid) as [h|]; simpl;
      [|intros _; by autorewrite with files].
    destruct (0 <? available_rooms h); simpl; [done|].
    intros _. by autorewrite with files.
  - rewrite cancel_reservation_run. cbn zeta.
    destruct (reservations w !! str rid) as [x|]; simpl; [done|].
    intros _. by autorewrite with files.
Qed.

Lemma failed_operation_changes_nothing_witness :
  hotels_json (step (CreateReservation (PStr "R2") (PStr "C1") (PStr "H1")) plaza_full)
  = hotels_json plaza_full.
Proof.
  apply (failed_operation_changes_nothing
           (CreateReservation (PStr "R2") (PStr "C1") (PStr "H1")) plaza_full).
  reflexivity.
Defined.

(** ** The unit tests of the repository

    The assertions of [test_reservation_system.py], each test starting from
    the empty store as [setUp] leaves it. *)

Example test_suite :
  let plaza100 := CreateHotel (PInt 1) (PStr "Plaza") (PStr "NYC") 100 in
  let plaza10 := CreateHotel (PInt 1) (PStr "Plaza") (PStr "NYC") 10 in
  let john := CreateCustomer (PInt 1) (PStr "John") (PStr "j@m.com") in
  let book := CreateReservation (PInt 1) (PInt 1) (PInt 1) in
  (* TestHotel *)
  (exec plaza100 empty_world).1 = Ret true ∧
  (Hotel.create_hotel (PInt 1) (PStr "Plaza 2") (PStr "LA") 50
     (run [plaza100] empty_world)).1 = Ret false ∧
  (Hotel.delete_hotel (PInt 1) (run [plaza100] empty_world)).1 = Ret true ∧
  (Hotel.delete_hotel (PInt 99) empty_world).1 = Ret false ∧
  (Hotel.display_hotel (PInt 1)
     (run [plaza100; ModifyHotel (PInt 1) (PStr "Grand Plaza") (PStr "Boston")]
        empty_world)).1
    = Ret (inl (mk_hotel (PStr "Grand Plaza") (PStr "Boston") 100 100)) ∧
  (* TestCustomer *)
  (exec john empty_world).1 = Ret true ∧
  (Customer.create_customer (PInt 1) (PStr "Jane") (PStr "ja@m.com")
     (run [john] empty_world)).1 = Ret false ∧
  (Customer.delete_customer (PInt 1) (run [john] empty_world)).1 = Ret true ∧
  (Customer.delete_customer (PInt 99) empty_world).1 = Ret false ∧
  (Customer.display_customer (PInt 1)
     (run [john; ModifyCustomer (PInt 1) (PStr "John Doe") (PStr "jd@m.com")]
        empty_world)).1
    = Ret (inl (mk_customer (PStr "John Doe") (PStr "jd@m.com"))) ∧
  (* TestReservation *)
  (exec book (run [plaza10; john] empty_world)).1 = Ret true ∧
  (exec book (run [plaza10; john; book] empty_world)).1 = Ret false ∧
  (Reservation.create_reservation (PInt 1) (PInt 1) (PInt 99) empty_world).1 = Ret false ∧
  (exec book (run [CreateHotel (PInt 1) (PStr "Plaza") (PStr "NYC") 0] empty_world)).1
    = Ret false ∧
  (Reservation.cancel_reservation (PInt 1) (run [plaza10; john; book] empty_world)).1
    = Ret true ∧
  (Reservation.cancel_reservation (PInt 99) empty_world).1 = Ret false ∧
  (* TestDataManager *)
  (DataManager.load_data Hotel.FILE_NAME garbled).1 = Ret ∅.
Proof. vm_compute. repeat split. Qed.
